(** * Hindustan Times scraper (scrap.py): a shallow embedding and its properties

    The program fetches category listing pages, follows the article links on
    them, extracts six fields from every article page and writes the collected
    records to a file.  Everything the program obtains from outside (HTTP, the
    HTML parser, [urljoin], [str.strip], the clock) is a variable of the
    section below, so every theorem holds for all behaviours of those
    collaborators.  Effects are explicit: a [State] carries the outside world
    and the chronological trace of requests, pauses and file writes.

    Console output ([print]) is not part of the model. *)

From Stdlib Require Import String Ascii List ZArith Lia Bool.
From Stdlib Require Import DecimalString DecimalZ DecimalPos.
Import ListNotations.
Open Scope string_scope.
Open Scope Z_scope.

(** ** Python strings, lists and dicts *)

(** [sep.join(parts)] *)
Fixpoint join (sep : string) (parts : list string) : string :=
  match parts with
  | [] => ""
  | [p] => p
  | p :: rest => p ++ sep ++ join sep rest
  end.

(** [needle in hay] for strings: [needle] occurs at some offset of [hay]. *)
Fixpoint contains (needle hay : string) : bool :=
  String.prefix needle hay ||
  match hay with
  | EmptyString => false
  | String _ hay' => contains needle hay'
  end.

(** The newline character, as a string. *)
Definition nl : string := String "010" "".

(** [c * n] for a one-character string [c]. *)
Fixpoint repeat_char (c : ascii) (n : nat) : string :=
  match n with
  | O => ""
  | S n' => String c (repeat_char c n')
  end.

(** [str(z)] for a Python int. *)
Definition str_int (z : Z) : string := NilZero.string_of_int (Z.to_int z).

(** [len(l)] *)
Definition len {A : Type} (l : list A) : Z := Z.of_nat (length l).

(** Truthiness of a string: the empty string is falsy. *)
Definition truthy_str (s : string) : bool :=
  match s with EmptyString => false | String _ _ => true end.

(** Truthiness of an optional string ([None] and [""] are falsy). *)
Definition truthy_ostr (o : option string) : bool :=
  match o with None => false | Some s => truthy_str s end.

(** A dict with string keys and string values, in insertion order. *)
Definition Dict : Type := list (string * string).

(** [d.get(k)]: [None] when the key is missing. *)
Fixpoint dict_get (k : string) (d : Dict) : option string :=
  match d with
  | [] => None
  | (k', v) :: d' => if String.eqb k' k then Some v else dict_get k d'
  end.

(** [d.keys()] *)
Definition dict_keys (d : Dict) : list string := map fst d.

(** [d.get(k, default)] *)
Definition dict_get_default (k default : string) (d : Dict) : string :=
  match dict_get k d with Some v => v | None => default end.

(** ** Module constants *)

Definition BASE_URL : string := "https://www.hindustantimes.com".
Definition WAIT_TIME : Z := 2.

(** ** Exceptions, file contents, events *)

Inductive Exn : Type :=
| KeyError (key : string)
| ValueError.

(** What a writer puts into a file: text as written, or the rows handed to
    [csv.DictWriter] / appended to the [openpyxl] sheet. *)
Inductive FileData : Type :=
| TextFile (content : string)
| CsvFile (rows : list (list string))
| XlsxFile (sheet_title : string) (rows : list (list string)).

(** The result of the queries the program makes on a parsed document.  Every
    element is represented by its [.text]; a link by its [href] attribute. *)
Record Soup : Type := mkSoup {
  find_h1 : option string;              (* soup.find('h1') *)
  select_author : option string;        (* soup.select_one('span[class*="author"], a[class*="author"]') *)
  find_dateTime : option string;        (* soup.find('span', class_='dateTime') *)
  find_storyDetails : option (list string);
                                        (* soup.find('div', class_='storyDetails'), with its
                                           find_all('p') *)
  select_breadcrumb : list string;      (* soup.select('ul.breadcrumb li a') *)
  select_cartHolder : list (option string)
                                        (* link.get('href') of every element of
                                           soup.select('div[class*="cartHolder"] a') *)
}.

(** What the program does to the outside, in the order it does it. *)
Inductive Event : Type :=
| Fetch (url : string)
| Sleep (seconds : Z)
| WriteFile (filename : string) (data : FileData).

(** The outside world and the trace of events so far. *)
Record State (World : Type) : Type := mkState {
  world : World;
  trace : list Event
}.
Arguments mkState {World} world trace.
Arguments world {World} s.
Arguments trace {World} s.

(** ** A small site for concrete runs

    The world is the number of requests served so far.  The document of a
    page is its URL; the parser is a table from these documents to what the
    selectors find in them. *)
Module Fixture.

Definition World : Type := nat.

Definition site (path : string) : string := BASE_URL ++ path.

(** The sports listing has one page only (page 2 cannot be had), and one
    article of the cities listing cannot be had on the very first request. *)
Definition http_get (url : string) (w : World) : option string * World :=
  (if String.eqb url (site "/sports/page-2") then None
   else if String.eqb url (site "/cities/flaky") then
          (if Nat.eqb w 0 then None else Some url)
   else if String.eqb url (site "/cities/gone") then None
   else Some url,
   S w).

Definition listing (hrefs : list (option string)) : Soup :=
  mkSoup None None None None [] hrefs.

Definition business_1 : list string :=
  ["/business/a1"; "/business/a2"; "/business/a3"; "/business/a4"; "/business/a5"].
Definition business_2 : list string :=
  ["/business/b1"; "/business/b2"; "/business/b3"; "/business/b4"; "/business/b5"].
Definition business_3 : list string :=
  ["/business/c1"; "/business/c2"; "/business/c3"; "/business/c4"; "/business/c5"].

Definition BeautifulSoup (html : string) : Soup :=
  if String.eqb html (site "/business/") then listing (map Some business_1)
  else if String.eqb html (site "/business/page-2") then listing (map Some business_2)
  else if String.eqb html (site "/business/page-3") then listing (map Some business_3)
  else if String.eqb html (site "/sports/") then
    listing [Some "/sports/s1"; Some "/sports/s2"]
  else if String.eqb html (site "/cities/") then
    listing [None; Some "/photos/gallery-1"; Some "/cities/c1"; Some "/videos/clip";
             Some ""; Some "/cities/c1"; Some "/cities/gone"; Some "/cities/c2"]
  else if String.eqb html (site "/sports/s2") then
    mkSoup None None None None [] []
  else if String.eqb html (site "/cities/c1") then
    mkSoup (Some " Rain in the city ") (Some "Staff") (Some "Nov 03, 2026")
           (Some ["First paragraph."; " Second paragraph. "])
           ["Home"; " Cities "; "Delhi"] []
  else
    mkSoup (Some html) None (Some "Nov 03, 2026") (Some ["Text."]) ["Home"] [].

(** Removal of the spaces around a text. *)
Fixpoint lstrip (s : string) : string :=
  match s with
  | String " " s' => lstrip s'
  | _ => s
  end.

Fixpoint rstrip (s : string) : string :=
  match s with
  | EmptyString => EmptyString
  | String c s' =>
      match rstrip s' with
      | EmptyString => if Ascii.eqb c " " then EmptyString else String c EmptyString
      | r => String c r
      end
  end.

Definition strip (s : string) : string := rstrip (lstrip s).

(** Joining an absolute path to the base. *)
Definition urljoin (base href : string) : string := base ++ href.

Definition time_sleep (seconds : Z) (w : World) : World := w.

Definition today (w : World) : string := "2026-11-03".

(** The state before anything was requested. *)
Definition start : State World := mkState 0%nat [].

End Fixture.

(** ** The small site with a console

    The world also holds the lines still to be read from standard input. *)
Module Console.

Definition World : Type := (list string * Fixture.World)%type.

Definition input (w : World) : string * World :=
  match fst w with
  | [] => ("", w)
  | line :: rest => (line, (rest, snd w))
  end.

Definition http_get (url : string) (w : World) : option string * World :=
  let (response, n) := Fixture.http_get url (snd w) in (response, (fst w, n)).

Definition time_sleep (seconds : Z) (w : World) : World := w.

Definition today (w : World) : string := "2026-11-03".

(** Decimal digits to a number. *)
Fixpoint digits (s : string) (acc : Z) : option Z :=
  match s with
  | EmptyString => Some acc
  | String c rest =>
      let d := Z.of_nat (nat_of_ascii c) - 48 in
      if (0 <=? d) && (d <=? 9) then digits rest (10 * acc + d) else None
  end.

(** Signed decimal numerals. *)
Definition python_int (text : string) : option Z :=
  match text with
  | EmptyString => None
  | String "-" (String _ _ as rest) => option_map Z.opp (digits rest 0)
  | String "-" EmptyString => None
  | _ => digits text 0
  end.

(** The state with the given lines waiting on standard input. *)
Definition start (lines : list string) : State World := mkState (lines, 0%nat) [].

End Console.

(** ** A site of galleries only

    Every page can be had, and every page has the same two card links: one
    to a photo gallery and one without an href. *)
Module Gallery.

Definition World : Type := unit.

Definition http_get (url : string) (w : World) : option string * World := (Some url, w).

Definition BeautifulSoup (html : string) : Soup :=
  mkSoup None None None None [] [Some "/photos/gallery-1"; None].

Definition time_sleep (seconds : Z) (w : World) : World := w.

Definition today (w : World) : string := "2026-11-03".

Definition start : State World := mkState tt [].

End Gallery.

Section Scraper.

(** The outside world: the network and the clock. *)
Variable World : Type.

(** [requests.get(url, headers=HEADERS)], [raise_for_status()] and [.text]:
    [None] stands for any exception raised on the way. *)
Variable http_get : string -> World -> option string * World.

(** [BeautifulSoup(html, 'lxml')] *)
Variable BeautifulSoup : string -> Soup.

(** [s.strip()] *)
Variable strip : string -> string.

(** [urllib.parse.urljoin(base, href)] *)
Variable urljoin : string -> string -> string.

(** [time.sleep(seconds)] *)
Variable time_sleep : Z -> World -> World.

(** [datetime.now().strftime("%Y-%m-%d")] *)
Variable today : World -> string.

(** ** A state-and-exception monad *)

Inductive Res (A : Type) : Type :=
| Ok (a : A) (s : State World)
| Raised (e : Exn) (s : State World).
Arguments Ok {A} a s.
Arguments Raised {A} e s.

Definition M (A : Type) : Type := State World -> Res A.

Definition ret {A : Type} (a : A) : M A := fun s => Ok a s.

Definition bind {A B : Type} (m : M A) (k : A -> M B) : M B :=
  fun s => match m s with
           | Ok a s' => k a s'
           | Raised e s' => Raised e s'
           end.

Definition raise {A : Type} (e : Exn) : M A := fun s => Raised e s.

Notation "x <- m ;; k" := (bind m (fun x => k))
  (at level 61, m at next level, right associativity).
Notation "m ;;; k" := (bind m (fun _ => k))
  (at level 61, right associativity).

(** Log an event; the world is left as it is. *)
Definition emit (e : Event) : M unit :=
  fun s => Ok tt (mkState (world s) (trace s ++ [e])).

(** [time.sleep(seconds)]: the clock advances and the pause is logged. *)
Definition sleep (seconds : Z) : M unit :=
  fun s => Ok tt (mkState (time_sleep seconds (world s)) (trace s ++ [Sleep seconds])).

(** ** fetch_html *)

Definition fetch_html (url : string) : M (option string) :=
  fun s =>
    let (response, w) := http_get url (world s) in
    Ok response (mkState w (trace s ++ [Fetch url])).

(** ** extract_article *)

(** The dict literal built by [extract_article] from the parsed page. *)
Definition article_of (soup : Soup) (url : string) : Dict :=
  let title := find_h1 soup in
  let author := select_author soup in
  let date := find_dateTime soup in
  let content_block := find_storyDetails soup in
  let category_links := select_breadcrumb soup in
  [ ("Title", match title with Some t => strip t | None => "N/A" end);
    ("Author", match author with Some t => strip t | None => "N/A" end);
    ("Published Time", match date with Some t => strip t | None => "N/A" end);
    ("URL", url);
    ("Categories",
       match category_links with
       | _ :: _ => join ", " (map strip (tl category_links))
       | [] => "N/A"
       end);
    ("Full Text",
       match content_block with
       | Some paragraphs => join (nl ++ nl) (map strip paragraphs)
       | None => "N/A"
       end) ].

Definition extract_article (url : string) : M (option Dict) :=
  html <- fetch_html url ;;
  match html with
  | Some (String _ _ as html) => ret (Some (article_of (BeautifulSoup html) url))
  | _ => ret None
  end.

(** ** The three writers *)

Definition FIELDNAMES : list string :=
  ["Title"; "Author"; "Published Time"; "URL"; "Categories"; "Full Text"].

(** [csv.DictWriter.writerow(rowdict)]: a key outside [fieldnames] raises
    [ValueError]; a missing key is written as the empty string. *)
Definition csv_row (fieldnames : list string) (rowdict : Dict) : option (list string) :=
  if forallb (fun k => existsb (String.eqb k) fieldnames) (dict_keys rowdict)
  then Some (map (fun k => dict_get_default k "" rowdict) fieldnames)
  else None.

(** The rows written for the articles, and the exception that stopped the
    writing, if any. *)
Fixpoint csv_rows (fieldnames : list string) (articles : list Dict)
  : list (list string) * option Exn :=
  match articles with
  | [] => ([], None)
  | article :: rest =>
      match csv_row fieldnames article with
      | None => ([], Some ValueError)
      | Some row =>
          let (rows, e) := csv_rows fieldnames rest in
          (row :: map (fun _ => "") fieldnames :: rows, e)
      end
  end.

Definition save_to_csv (articles : list Dict) (filename : string) : M unit :=
  let keys := FIELDNAMES in
  let (rows, e) := csv_rows keys articles in
  emit (WriteFile filename (CsvFile (keys :: rows))) ;;;
  match e with
  | None => ret tt
  | Some e => raise e
  end.

(** The [key:\nvalue\n\n] blocks of [article.items()]. *)
Fixpoint txt_items (items : Dict) : string :=
  match items with
  | [] => ""
  | (key, value) :: rest => key ++ ":" ++ nl ++ value ++ nl ++ nl ++ txt_items rest
  end.

(** The body of the [for idx, article in enumerate(articles, start=idx)] loop
    of [save_to_txt], as the text written. *)
Fixpoint txt_articles (idx : Z) (articles : list Dict) : string :=
  match articles with
  | [] => ""
  | article :: rest =>
      "ARTICLE #" ++ str_int idx ++ nl ++
      repeat_char "=" 40 ++ nl ++
      txt_items article ++
      repeat_char "-" 80 ++ nl ++ nl ++
      txt_articles (idx + 1) rest
  end.

Definition save_to_txt (articles : list Dict) (filename : string) : M unit :=
  emit (WriteFile filename (TextFile (txt_articles 1 articles))).

Definition excel_rows (headers : list string) (articles : list Dict) : list (list string) :=
  flat_map (fun article =>
              [ map (fun key => dict_get_default key "" article) headers;
                map (fun _ => repeat_char "-" 10) headers ])
           articles.

Definition save_to_excel (articles : list Dict) (filename : string) : M unit :=
  let headers := FIELDNAMES in
  emit (WriteFile filename
          (XlsxFile "Scraped Articles" (headers :: excel_rows headers articles))).

(** ** scrape_articles *)

(** The listing URL of the current page cursor. *)
Definition listing_url (category : string) (page : Z) : string :=
  if page =? 1
  then BASE_URL ++ "/" ++ category ++ "/"
  else BASE_URL ++ "/" ++ category ++ "/page-" ++ str_int page.

(** [any(a['URL'] == full_url for a in articles)]: stops at the first match;
    an article without the key raises [KeyError]. *)
Fixpoint any_url_eq (full_url : string) (articles : list Dict) : M bool :=
  match articles with
  | [] => ret false
  | a :: rest =>
      match dict_get "URL" a with
      | None => raise (KeyError "URL")
      | Some u => if String.eqb u full_url then ret true else any_url_eq full_url rest
      end
  end.

(** [not href or '/photos/' in href or '/videos/' in href] *)
Definition not_an_article (href : option string) : bool :=
  match href with
  | None => true
  | Some h => negb (truthy_str h) || contains "/photos/" h || contains "/videos/" h
  end.

(** The [for link in links] loop; the result is [articles] after the loop. *)
Fixpoint for_links (max_articles : Z) (links : list (option string))
         (articles : list Dict) {struct links} : M (list Dict) :=
  match links with
  | [] => ret articles
  | href :: rest =>
      if len articles >=? max_articles then ret articles            (* break *)
      else if not_an_article href then
        for_links max_articles rest articles                        (* continue *)
      else
        let full_url := urljoin BASE_URL (match href with Some h => h | None => "" end) in
        seen <- any_url_eq full_url articles ;;
        if seen then for_links max_articles rest articles           (* continue *)
        else
          article <- extract_article full_url ;;
          let articles' :=
            match article with
            | Some ((_ :: _) as a) => (articles ++ [a])%list
            | _ => articles
            end in
          sleep WAIT_TIME ;;;
          for_links max_articles rest articles'
  end.

(** Where the [while] loop stands: about to test its condition with the given
    cursor and articles, or left (by the condition or by [break]). *)
Inductive Loop : Type :=
| Running (page : Z) (articles : list Dict)
| Exited (articles : list Dict).

(** One round of the [while len(articles) < max_articles] loop. *)
Definition while_round (category : string) (max_articles : Z)
           (page : Z) (articles : list Dict) : M Loop :=
  if len articles <? max_articles then
    let url := listing_url category page in
    html <- fetch_html url ;;
    match html with
    | Some (String _ _ as html) =>
        let soup := BeautifulSoup html in
        let links := select_cartHolder soup in
        match links with
        | [] => ret (Exited articles)
        | _ :: _ =>
            articles' <- for_links max_articles links articles ;;
            sleep WAIT_TIME ;;;
            ret (Running (page + 1) articles')
        end
    | _ => ret (Exited articles)
    end
  else ret (Exited articles).

(** At most [fuel] rounds of the loop.  [Running] in the result means that
    the loop has not ended within [fuel] rounds. *)
Fixpoint while_loop (fuel : nat) (category : string) (max_articles : Z)
         (page : Z) (articles : list Dict) : M Loop :=
  match fuel with
  | O => ret (Running page articles)
  | S fuel' =>
      loop <- while_round category max_articles page articles ;;
      match loop with
      | Running page' articles' => while_loop fuel' category max_articles page' articles'
      | Exited articles' => ret (Exited articles')
      end
  end.

(** The part of [scrape_articles] after the loop. *)
Definition save_articles (category : string) (file_type : string)
           (articles : list Dict) : M unit :=
  fun s =>
    let date_str := today (world s) in
    let filename := "hindustan_times_" ++ category ++ "_" ++ date_str ++ "." ++ file_type in
    (if String.eqb file_type "csv" then save_to_csv articles filename
     else if String.eqb file_type "txt" then save_to_txt articles filename
     else if String.eqb file_type "xlsx" then save_to_excel articles filename
     else save_to_csv articles filename) s.

(** [scrape_articles(category, max_articles, file_type)], with at most [fuel]
    rounds of its loop: [Some articles] when the function returned, with the
    articles it saved; [None] when the loop was still running. *)
Definition scrape_articles (fuel : nat) (category : string) (max_articles : Z)
           (file_type : string) : M (option (list Dict)) :=
  loop <- while_loop fuel category max_articles 1 [] ;;
  match loop with
  | Running _ _ => ret None
  | Exited articles =>
      save_articles category file_type articles ;;;
      ret (Some articles)
  end.

(** ** The run driver *)

(** [input(prompt)]: the next line of standard input (a line is always
    there: the end of the input is not part of the model). *)
Variable input : World -> string * World.

(** [int(text)] for a string: [None] stands for [ValueError]. *)
Variable python_int : string -> option Z.

Definition categories : Dict :=
  [ ("1", "india-news"); ("2", "world-news"); ("3", "business");
    ("4", "cities"); ("5", "entertainment"); ("6", "sports") ].

(** [input(prompt).strip()] *)
Definition read_input : M string :=
  fun s =>
    let (line, w) := input (world s) in
    Ok (strip line) (mkState w (trace s)).

(** [categories.get(choice, 'business')] *)
Definition select_category (choice : string) : string :=
  dict_get_default choice "business" categories.

(** [int(text or 10)], with 10 on [ValueError]. *)
Definition parse_count (text : string) : Z :=
  match text with
  | EmptyString => 10
  | String _ _ =>
      match python_int text with
      | Some n => n
      | None => 10
      end
  end.

(** The file type of the menu choice. *)
Definition select_file_type (file_choice : string) : string :=
  if String.eqb file_choice "2" then "txt"
  else if String.eqb file_choice "3" then "xlsx"
  else "csv".

(** The body of [if __name__ == "__main__"], with at most [fuel] rounds of
    the loop of [scrape_articles]. *)
Definition main (fuel : nat) : M (option (list Dict)) :=
  choice <- read_input ;;
  let selected_category := select_category choice in
  text <- read_input ;;
  let max_articles := parse_count text in
  file_choice <- read_input ;;
  let file_type := select_file_type file_choice in
  scrape_articles fuel selected_category max_articles file_type.

(** ** Vocabulary of the properties *)

(** Every article is a dict with exactly the six keys of the literal. *)
Definition all_records (articles : list Dict) : Prop :=
  Forall (fun a => dict_keys a = FIELDNAMES) articles.

(** The URL fields of the articles, in order. *)
Definition urls (articles : list Dict) : list (option string) :=
  map (dict_get "URL") articles.

(** The test of [any_url_eq] as a pure function (no article lacks the key). *)
Definition url_in (full_url : string) (articles : list Dict) : bool :=
  existsb (fun a => match dict_get "URL" a with
                    | Some u => String.eqb u full_url
                    | None => false
                    end) articles.

Definition loop_articles (loop : Loop) : list Dict :=
  match loop with
  | Running _ articles => articles
  | Exited articles => articles
  end.

(** The state after the article request for [full_url] and the pause. *)
Definition after_candidate (full_url : string) (s : State World) : State World :=
  mkState (time_sleep WAIT_TIME (snd (http_get full_url (world s))))
          (trace s ++ [Fetch full_url; Sleep WAIT_TIME]).

(** The links of the listing page of the cursor, as the round sees them:
    none when the request gave nothing or an empty document. *)
Definition listing_links (category : string) (page : Z) (w : World)
  : list (option string) :=
  match fst (http_get (listing_url category page) w) with
  | Some (String _ _ as html) => select_cartHolder (BeautifulSoup html)
  | _ => []
  end.

(** What [scrape_articles] writes for a file type. *)
Definition file_data (file_type : string) (articles : list Dict) : FileData :=
  if String.eqb file_type "txt" then TextFile (txt_articles 1 articles)
  else if String.eqb file_type "xlsx" then
    XlsxFile "Scraped Articles" (FIELDNAMES :: excel_rows FIELDNAMES articles)
  else CsvFile (FIELDNAMES :: fst (csv_rows FIELDNAMES articles)).

Definition file_name (category date_str file_type : string) : string :=
  "hindustan_times_" ++ category ++ "_" ++ date_str ++ "." ++ file_type.

(** The state after the request for the listing page of the cursor. *)
Definition after_listing (category : string) (page : Z) (s : State World) : State World :=
  mkState (snd (http_get (listing_url category page) (world s)))
          (trace s ++ [Fetch (listing_url category page)]).

(** The requests and pauses of the candidates that are all extracted. *)
Definition visits (hrefs : list string) : list Event :=
  flat_map (fun h => [Fetch (urljoin BASE_URL h); Sleep WAIT_TIME]) hrefs.

(** An href that passes the filter and whose article page can always be had. *)
Definition good_href (h : string) : Prop :=
  not_an_article (Some h) = false /\
  forall w, truthy_ostr (fst (http_get (urljoin BASE_URL h) w)) = true.

(** The plain-text layout in the words of its description (not read off
    [save_to_txt]), as lines; [save_to_txt_layout] compares the two.
    The three lines of a field: its name and a colon, its value, a blank. *)
Definition field_lines (article : Dict) : list string :=
  flat_map (fun kv => [fst kv ++ ":"; snd kv; ""]) article.

(** The lines of the article with 1-based index [i]: header, rule of 40 "=",
    the fields, rule of 80 "-", a blank. *)
Definition txt_block (i : Z) (article : Dict) : list string :=
  ("ARTICLE #" ++ str_int i) :: repeat_char "=" 40 ::
  (field_lines article ++ [repeat_char "-" 80; ""])%list.

(** The articles with their indices 1..n. *)
Definition numbered (articles : list Dict) : list (Z * Dict) :=
  combine (map Z.of_nat (seq 1 (length articles))) articles.

(** All the lines of the file. *)
Definition txt_layout (articles : list Dict) : list string :=
  flat_map (fun ia => txt_block (fst ia) (snd ia)) (numbered articles).

(** Writing lines: every line is followed by a newline. *)
Fixpoint write_lines (lines : list string) : string :=
  match lines with
  | [] => ""
  | line :: rest => line ++ nl ++ write_lines rest
  end.

(** [sub] is [l] with some of its elements left out, the others in order. *)
Inductive Subseq {A : Type} : list A -> list A -> Prop :=
| Subseq_nil : Subseq [] []
| Subseq_take (x : A) (sub l : list A) : Subseq sub l -> Subseq (x :: sub) (x :: l)
| Subseq_skip (x : A) (sub l : list A) : Subseq sub l -> Subseq sub (x :: l).

(** The hrefs of a page that pass the filter of the for loop, in page order. *)
Definition candidates (links : list (option string)) : list string :=
  flat_map (fun link => match link with
                        | Some h => if not_an_article link then [] else [h]
                        | None => []
                        end) links.

(** The events of one full round over the page of the cursor, in which the
    article pages of [requested] were asked for. *)
Definition round_events (category : string) (page : Z) (requested : list string)
  : list Event :=
  Fetch (listing_url category page) :: (visits requested ++ [Sleep WAIT_TIME])%list.

(** The events of consecutive full rounds, starting at the cursor [page]. *)
Fixpoint rounds_events (category : string) (page : Z) (rounds : list (list string))
  : list Event :=
  match rounds with
  | [] => []
  | requested :: rest =>
      (round_events category page requested ++
       rounds_events category (page + 1) rest)%list
  end.

(** The two rows written for a six-field article: its values, then the
    separator cells. *)
Definition article_rows (separator : string) (articles : list Dict)
  : list (list string) :=
  flat_map (fun a => [map snd a; map (fun _ => separator) FIELDNAMES]) articles.

(** A response known to be falsy: nothing, or the empty document. *)
Ltac falsy_response H :=
  match type of H with
  | truthy_ostr ?r = false =>
      destruct r as [[|? ?]|]; [reflexivity|discriminate H|reflexivity]
  end.

(** ** Running the basic commands *)

Lemma extract_article_run (url : string) (s : State World) :
  extract_article url s =
  Ok (match fst (http_get url (world s)) with
      | Some (String _ _ as html) => Some (article_of (BeautifulSoup html) url)
      | _ => None
      end)
     (mkState (snd (http_get url (world s))) (trace s ++ [Fetch url])).
Proof.
  unfold extract_article, bind, fetch_html.
  destruct (http_get url (world s)) as [[[|c html]|] w]; reflexivity.
Qed.

Lemma article_of_keys (soup : Soup) (url : string) :
  dict_keys (article_of soup url) = FIELDNAMES.
Proof. reflexivity. Qed.

Lemma article_of_url (soup : Soup) (url : string) :
  dict_get "URL" (article_of soup url) = Some url.
Proof. reflexivity. Qed.

(** ** The record built by extract_article *)

(** C4: extract_article never raises; it returns no record exactly when the
    fetch gave nothing (or an empty document), and otherwise a dict whose keys
    are exactly the six field names, each bound to a string, where a selector
    without a match (title, author, date, breadcrumb anchors, story body)
    gives the text "N/A" for its field. *)
Theorem extract_article_six_fields (url : string) (s : State World) :
  exists s',
    (truthy_ostr (fst (http_get url (world s))) = false /\
     extract_article url s = Ok None s') \/
    (exists html article,
        fst (http_get url (world s)) = Some html /\
        truthy_str html = true /\
        extract_article url s = Ok (Some article) s' /\
        dict_keys article = FIELDNAMES /\
        length article = 6%nat /\
        Forall (fun k => exists v, dict_get k article = Some v) FIELDNAMES /\
        dict_get "URL" article = Some url /\
        (find_h1 (BeautifulSoup html) = None ->
         dict_get "Title" article = Some "N/A") /\
        (select_author (BeautifulSoup html) = None ->
         dict_get "Author" article = Some "N/A") /\
        (find_dateTime (BeautifulSoup html) = None ->
         dict_get "Published Time" article = Some "N/A") /\
        (select_breadcrumb (BeautifulSoup html) = [] ->
         dict_get "Categories" article = Some "N/A") /\
        (find_storyDetails (BeautifulSoup html) = None ->
         dict_get "Full Text" article = Some "N/A")).
Proof.
  rewrite extract_article_run.
  eexists.
  destruct (fst (http_get url (world s))) as [[|c html]|] eqn:Hget.
  - left. split; reflexivity.
  - right. exists (String c html), (article_of (BeautifulSoup (String c html)) url).
    split; [reflexivity|]. split; [reflexivity|]. split; [reflexivity|].
    split; [reflexivity|]. split; [reflexivity|].
    split.
    { repeat constructor; eexists; reflexivity. }
    split; [reflexivity|].
    repeat split; intros Hnone; unfold article_of; rewrite Hnone; reflexivity.
  - left. split; reflexivity.
Qed.

(** C9: when the page has exactly one breadcrumb anchor, extract_article
    sets Categories to the empty string (the join of the empty tail), which
    is not "N/A"; with no anchor it sets "N/A"; and with any anchors at all it
    sets the comma-space join of the stripped texts of the anchors after the
    first, so the "N/A" literal of the other branch is used only when the
    selector matched nothing. *)
Theorem categories_single_anchor_is_empty (url html : string) (s : State World) :
  fst (http_get url (world s)) = Some html ->
  truthy_str html = true ->
  exists article s',
    extract_article url s = Ok (Some article) s' /\
    (forall a, select_breadcrumb (BeautifulSoup html) = [a] ->
               dict_get "Categories" article = Some "" /\
               dict_get "Categories" article <> Some "N/A") /\
    (select_breadcrumb (BeautifulSoup html) = [] ->
     dict_get "Categories" article = Some "N/A") /\
    (select_breadcrumb (BeautifulSoup html) <> [] ->
     dict_get "Categories" article =
     Some (join ", " (map strip (tl (select_breadcrumb (BeautifulSoup html)))))).
Proof.
  intros Hget Hhtml. rewrite extract_article_run, Hget.
  destruct html as [|c html]; [discriminate|].
  eexists. eexists. split; [reflexivity|].
  split; [|split].
  - intros a Ha. unfold article_of. rewrite Ha. cbn.
    split; [reflexivity|discriminate].
  - intros Hnil. unfold article_of. rewrite Hnil. reflexivity.
  - intros Hne. unfold article_of.
    destruct (select_breadcrumb (BeautifulSoup (String c html))) as [|a l];
      [congruence|reflexivity].
Qed.

(** ** Well-formed article lists *)

Lemma len_app_one {A : Type} (l : list A) (x : A) : len (l ++ [x])%list = len l + 1.
Proof. unfold len. rewrite length_app. simpl. lia. Qed.

Lemma NoDup_snoc {A : Type} (l : list A) (x : A) :
  NoDup l -> ~ In x l -> NoDup (l ++ [x]).
Proof.
  intros Hnd Hx. induction Hnd as [|y l Hy Hnd IH].
  - cbn. constructor; [intros []|constructor].
  - cbn. constructor.
    + rewrite in_app_iff. intros [Hl|[Heq|[]]]; [contradiction|].
      apply Hx. left. now symmetry.
    + apply IH. intros Hin. apply Hx. now right.
Qed.

Lemma NoDup_app_disjoint {A : Type} (l1 l2 : list A) :
  NoDup (l1 ++ l2) -> forall a, In a l1 -> ~ In a l2.
Proof.
  induction l1 as [|x l1 IH]; cbn; intros Hnd a Hin; [contradiction|].
  inversion Hnd as [|? ? Hx Hnd']; subst.
  destruct Hin as [->|Hin]; [|apply IH; assumption].
  intros Hin2. apply Hx, in_app_iff. now right.
Qed.

Lemma NoDup_map_Some {A : Type} (l : list A) : NoDup l -> NoDup (map Some l).
Proof.
  induction 1 as [|x l Hx Hnd IH]; cbn; constructor; [|exact IH].
  rewrite in_map_iff. intros (y & Heq & Hin). injection Heq as ->. exact (Hx Hin).
Qed.

Lemma len_nonneg {A : Type} (l : list A) : 0 <= len l.
Proof. unfold len. lia. Qed.

Lemma record_has_url (a : Dict) :
  dict_keys a = FIELDNAMES -> exists u, dict_get "URL" a = Some u.
Proof.
  unfold dict_keys, FIELDNAMES. intros H.
  destruct a as [|[k1 v1] [|[k2 v2] [|[k3 v3] [|[k4 v4] a]]]]; try discriminate.
  simpl in H. injection H as -> -> -> -> _.
  exists v4. reflexivity.
Qed.

Lemma all_records_app (l1 l2 : list Dict) :
  all_records l1 -> all_records l2 -> all_records (l1 ++ l2).
Proof. unfold all_records. intros H1 H2. apply Forall_app. split; assumption. Qed.

Lemma any_url_eq_run (full_url : string) (articles : list Dict) (s : State World) :
  all_records articles ->
  any_url_eq full_url articles s = Ok (url_in full_url articles) s.
Proof.
  induction 1 as [|a l Ha Hl IH]; [reflexivity|].
  simpl. destruct (record_has_url a Ha) as [u Hu]. rewrite Hu.
  destruct (String.eqb u full_url); [reflexivity|]. simpl. exact IH.
Qed.

Lemma url_in_spec (full_url : string) (articles : list Dict) :
  url_in full_url articles = true <-> In (Some full_url) (urls articles).
Proof.
  unfold url_in, urls. rewrite existsb_exists, in_map_iff.
  split.
  - intros [a [Hin Ha]]. exists a. split; [|exact Hin].
    destruct (dict_get "URL" a) as [u|]; [|discriminate].
    apply String.eqb_eq in Ha. now subst.
  - intros [a [Ha Hin]]. exists a. split; [exact Hin|].
    rewrite Ha. apply String.eqb_refl.
Qed.

Lemma url_in_false (full_url : string) (articles : list Dict) :
  url_in full_url articles = false <-> ~ In (Some full_url) (urls articles).
Proof.
  rewrite <- url_in_spec. destruct (url_in full_url articles); split; congruence.
Qed.

(** ** The for loop, one candidate at a time *)

Lemma for_links_break (max_articles : Z) (links : list (option string))
      (articles : list Dict) (s : State World) :
  max_articles <= len articles ->
  for_links max_articles links articles s = Ok articles s.
Proof.
  intros H. destruct links as [|href rest]; [reflexivity|].
  simpl. destruct (Z.geb_spec (len articles) max_articles); [reflexivity|lia].
Qed.

Lemma for_links_continue (max_articles : Z) (href : option string)
      (rest : list (option string)) (articles : list Dict) (s : State World) :
  not_an_article href = true ->
  for_links max_articles (href :: rest) articles s =
  for_links max_articles rest articles s.
Proof.
  intros H. simpl. rewrite H.
  destruct (Z.geb_spec (len articles) max_articles) as [Hge|Hlt]; [|reflexivity].
  symmetry. apply for_links_break. lia.
Qed.

Lemma for_links_seen (max_articles : Z) (h : string)
      (rest : list (option string)) (articles : list Dict) (s : State World) :
  all_records articles ->
  url_in (urljoin BASE_URL h) articles = true ->
  for_links max_articles (Some h :: rest) articles s =
  for_links max_articles rest articles s.
Proof.
  intros Hrec Hin.
  destruct (Z.geb_spec (len articles) max_articles) as [Hge|Hlt].
  - rewrite !for_links_break by lia. reflexivity.
  - destruct (not_an_article (Some h)) eqn:Hna.
    + apply for_links_continue. exact Hna.
    + simpl for_links.
      destruct (Z.geb_spec (len articles) max_articles) as [Hge|_]; [lia|].
      simpl in Hna. rewrite Hna.
      unfold bind at 1. rewrite any_url_eq_run by assumption. rewrite Hin.
      reflexivity.
Qed.

(** A candidate that passes the filters: it is requested, and appended when
    the request gave a (non-empty) document. *)
Lemma for_links_candidate (max_articles : Z) (h : string)
      (rest : list (option string)) (articles : list Dict) (s : State World) :
  len articles < max_articles ->
  not_an_article (Some h) = false ->
  all_records articles ->
  url_in (urljoin BASE_URL h) articles = false ->
  for_links max_articles (Some h :: rest) articles s =
  for_links max_articles rest
    (match fst (http_get (urljoin BASE_URL h) (world s)) with
     | Some (String _ _ as html) =>
         articles ++ [article_of (BeautifulSoup html) (urljoin BASE_URL h)]
     | _ => articles
     end)%list
    (after_candidate (urljoin BASE_URL h) s).
Proof.
  intros Hlt Hna Hrec Hin.
  simpl for_links.
  destruct (Z.geb_spec (len articles) max_articles) as [Hge|_]; [lia|].
  simpl in Hna. rewrite Hna.
  unfold bind at 1. rewrite any_url_eq_run by assumption. rewrite Hin.
  unfold bind at 1. rewrite extract_article_run.
  unfold bind at 1, sleep at 1. cbn [world trace].
  unfold after_candidate. rewrite <- app_assoc. cbn [app].
  destruct (fst (http_get (urljoin BASE_URL h) (world s))) as [[|c html]|];
    reflexivity.
Qed.

(** The loop over a page is the loop over a prefix of its links followed by
    the loop over the rest: what [for_links] gives on a prefix is the state
    of the loop at that point. *)
Lemma for_links_app (max_articles : Z) (l1 l2 : list (option string)) :
  forall (articles : list Dict) (s : State World),
    for_links max_articles (l1 ++ l2) articles s =
    match for_links max_articles l1 articles s with
    | Ok articles' s' => for_links max_articles l2 articles' s'
    | Raised e s' => Raised e s'
    end.
Proof.
  induction l1 as [|href rest IH]; intros articles s; [reflexivity|].
  cbn [app for_links].
  destruct (Z.geb_spec (len articles) max_articles) as [Hge|Hlt].
  { unfold ret. rewrite for_links_break by lia. reflexivity. }
  destruct (not_an_article href); [apply IH|].
  unfold bind, sleep.
  destruct (any_url_eq _ articles s) as [seen s1|e s1]; [|reflexivity].
  destruct seen; [apply IH|].
  destruct (extract_article _ s1) as [article s2|e s2]; [|reflexivity].
  apply IH.
Qed.

(** What one run of the for loop preserves: the articles are only extended,
    by six-key records, never beyond the target, never with a URL already
    present; and the loop raises nothing. *)
Lemma for_links_invariant (max_articles : Z) (links : list (option string)) :
  forall (articles : list Dict) (s : State World),
    all_records articles ->
    exists added s',
      for_links max_articles links articles s = Ok (articles ++ added)%list s' /\
      all_records added /\
      len (articles ++ added)%list <= Z.max max_articles (len articles) /\
      (NoDup (urls articles) -> NoDup (urls (articles ++ added)%list)).
Proof.
  induction links as [|href rest IH]; intros articles s Hrec.
  - exists [], s. rewrite app_nil_r. repeat split; try constructor; auto; lia.
  - destruct (Z.geb_spec (len articles) max_articles) as [Hge|Hlt].
    { exists [], s. rewrite app_nil_r, for_links_break by lia.
      repeat split; try constructor; auto; lia. }
    destruct (not_an_article href) eqn:Hna.
    { rewrite for_links_continue by exact Hna. apply IH, Hrec. }
    destruct href as [h|]; [|discriminate].
    destruct (url_in (urljoin BASE_URL h) articles) eqn:Hin.
    { rewrite for_links_seen by assumption. apply IH, Hrec. }
    rewrite for_links_candidate by assumption.
    destruct (fst (http_get (urljoin BASE_URL h) (world s))) as [[|c html]|];
      try (apply IH, Hrec).
    set (a := article_of (BeautifulSoup (String c html)) (urljoin BASE_URL h)).
    assert (Hrec' : all_records (articles ++ [a])).
    { apply all_records_app; [exact Hrec|]. repeat constructor. }
    destruct (IH (articles ++ [a])%list (after_candidate (urljoin BASE_URL h) s) Hrec')
      as (added & s' & Hrun & Hadded & Hlen & Hnodup).
    exists (a :: added), s'.
    rewrite <- app_assoc in Hrun, Hlen, Hnodup. cbn [app] in Hrun, Hlen, Hnodup.
    split; [exact Hrun|]. split; [constructor; [reflexivity|exact Hadded]|].
    split.
    + rewrite len_app_one in Hlen. lia.
    + intros Hnd. apply Hnodup. unfold urls. rewrite map_app. cbn [map].
      subst a. rewrite article_of_url.
      apply NoDup_snoc; [exact Hnd|]. apply url_in_false, Hin.
Qed.

(** ** The while loop *)

Lemma while_round_run (category : string) (max_articles page : Z)
      (articles : list Dict) (s : State World) :
  while_round category max_articles page articles s =
  if len articles <? max_articles then
    let url := listing_url category page in
    let s1 := mkState (snd (http_get url (world s))) (trace s ++ [Fetch url]) in
    match fst (http_get url (world s)) with
    | Some (String _ _ as html) =>
        match select_cartHolder (BeautifulSoup html) with
        | [] => Ok (Exited articles) s1
        | links =>
            match for_links max_articles links articles s1 with
            | Ok articles' s2 =>
                Ok (Running (page + 1) articles')
                   (mkState (time_sleep WAIT_TIME (world s2))
                            (trace s2 ++ [Sleep WAIT_TIME]))
            | Raised e s2 => Raised e s2
            end
        end
    | _ => Ok (Exited articles) s1
    end
  else Ok (Exited articles) s.
Proof.
  unfold while_round. destruct (len articles <? max_articles); [|reflexivity].
  unfold bind at 1, fetch_html. cbv zeta.
  destruct (http_get (listing_url category page) (world s)) as [[[|c html]|] w];
    cbn [fst snd]; try reflexivity.
  destruct (select_cartHolder (BeautifulSoup (String c html))) as [|l ls];
    [reflexivity|].
  unfold bind at 1.
  destruct (for_links max_articles (l :: ls) articles _) as [articles' s2|e s2];
    reflexivity.
Qed.

Lemma while_round_invariant (category : string) (max_articles page : Z)
      (articles : list Dict) (s : State World) :
  all_records articles ->
  exists added loop s',
    while_round category max_articles page articles s = Ok loop s' /\
    loop_articles loop = (articles ++ added)%list /\
    all_records added /\
    len (articles ++ added)%list <= Z.max max_articles (len articles) /\
    (NoDup (urls articles) -> NoDup (urls (articles ++ added)%list)) /\
    (forall page' articles', loop = Running page' articles' ->
       page' = page + 1 /\ listing_links category page (world s) <> []).
Proof.
  intros Hrec. rewrite while_round_run. unfold listing_links. cbv zeta.
  assert (Hstop : forall s1,
    exists added loop s',
      Ok (Exited articles) s1 = Ok loop s' /\
      loop_articles loop = (articles ++ added)%list /\
      all_records added /\
      len (articles ++ added)%list <= Z.max max_articles (len articles) /\
      (NoDup (urls articles) -> NoDup (urls (articles ++ added)%list)) /\
      (forall page' articles', loop = Running page' articles' ->
         page' = page + 1 /\
         match fst (http_get (listing_url category page) (world s)) with
         | Some (String _ _ as html) => select_cartHolder (BeautifulSoup html)
         | _ => []
         end <> [])).
  { intros s1. exists [], (Exited articles), s1. rewrite app_nil_r.
    repeat split; try constructor; auto; try lia; discriminate. }
  destruct (len articles <? max_articles); [|apply Hstop].
  destruct (fst (http_get (listing_url category page) (world s)))
    as [[|c html]|]; try apply Hstop.
  destruct (select_cartHolder (BeautifulSoup (String c html))) as [|l ls] eqn:Hlinks;
    [apply Hstop|].
  destruct (for_links_invariant max_articles (l :: ls) articles
              (mkState (snd (http_get (listing_url category page) (world s)))
                       (trace s ++ [Fetch (listing_url category page)])) Hrec)
    as (added & s2 & Hrun & Hadded & Hlen & Hnodup).
  rewrite Hrun. exists added. eexists. eexists.
  split; [reflexivity|]. cbn [loop_articles].
  repeat split; auto; try congruence.
Qed.

Lemma while_loop_invariant (category : string) (max_articles : Z) (fuel : nat) :
  forall (page : Z) (articles : list Dict) (s : State World),
    all_records articles ->
    exists added loop s',
      while_loop fuel category max_articles page articles s = Ok loop s' /\
      loop_articles loop = (articles ++ added)%list /\
      all_records added /\
      len (articles ++ added)%list <= Z.max max_articles (len articles) /\
      (NoDup (urls articles) -> NoDup (urls (articles ++ added)%list)).
Proof.
  induction fuel as [|fuel IH]; intros page articles s Hrec.
  - exists [], (Running page articles), s. rewrite app_nil_r.
    repeat split; try constructor; auto; lia.
  - cbn [while_loop]. unfold bind.
    destruct (while_round_invariant category max_articles page articles s Hrec)
      as (added & loop & s1 & Hrun & Harts & Hadded & Hlen & Hnodup & _).
    rewrite Hrun. destruct loop as [page' articles'|articles']; cbn in Harts; subst.
    + destruct (IH page' (articles ++ added)%list s1
                   (all_records_app _ _ Hrec Hadded))
        as (added' & loop' & s2 & Hrun' & Harts' & Hadded' & Hlen' & Hnodup').
      exists (added ++ added')%list, loop', s2.
      rewrite app_assoc.
      split; [exact Hrun'|]. split; [exact Harts'|].
      split; [apply all_records_app; assumption|].
      split; [lia|auto].
    + exists added. eexists. eexists. split; [reflexivity|]. cbn.
      repeat split; auto.
Qed.

(** Rounds add up: running [n + m] rounds is running [n] rounds and, when the
    loop is still going, [m] more. *)
Lemma while_loop_add (category : string) (max_articles : Z) (n m : nat) :
  forall (page : Z) (articles : list Dict) (s : State World),
    while_loop (n + m) category max_articles page articles s =
    match while_loop n category max_articles page articles s with
    | Ok (Running page' articles') s' =>
        while_loop m category max_articles page' articles' s'
    | other => other
    end.
Proof.
  induction n as [|n IH]; intros page articles s; [reflexivity|].
  cbn [Nat.add while_loop]. unfold bind.
  destruct (while_round category max_articles page articles s)
    as [[page' articles'|articles'] s1|e s1]; try reflexivity.
  apply IH.
Qed.

(** When some listing page gives no links (its request fails, its document is
    empty, or no card link is found), the loop ends before going past it. *)
Lemma while_loop_exits (category : string) (max_articles k : Z) :
  (forall w, listing_links category k w = []) ->
  forall (fuel : nat) (page : Z) (articles : list Dict) (s : State World),
    all_records articles ->
    page <= k ->
    k - page < Z.of_nat fuel ->
    exists articles' s',
      while_loop fuel category max_articles page articles s =
      Ok (Exited articles') s'.
Proof.
  intros Hend. induction fuel as [|fuel IH]; intros page articles s Hrec Hle Hfuel.
  - lia.
  - cbn [while_loop]. unfold bind.
    destruct (while_round_invariant category max_articles page articles s Hrec)
      as (added & loop & s1 & Hrun & Harts & Hadded & _ & _ & Hnext).
    rewrite Hrun. destruct loop as [page' articles'|articles'].
    + destruct (Hnext page' articles' eq_refl) as [-> Hlinks].
      cbn in Harts. subst articles'.
      assert (page <> k) by (intros ->; apply Hlinks, Hend).
      apply IH; [apply all_records_app; assumption|lia|lia].
    + eexists. eexists. reflexivity.
Qed.

(** ** Saving *)

Lemma csv_rows_ok (articles : list Dict) :
  all_records articles -> snd (csv_rows FIELDNAMES articles) = None.
Proof.
  induction 1 as [|a l Ha Hl IH]; [reflexivity|].
  cbn [csv_rows]. unfold csv_row. rewrite Ha.
  replace (forallb (fun k => existsb (String.eqb k) FIELDNAMES) FIELDNAMES)
    with true by reflexivity.
  destruct (csv_rows FIELDNAMES l) as [rows e]. exact IH.
Qed.

Lemma save_articles_run (category file_type : string) (articles : list Dict)
      (s : State World) :
  all_records articles ->
  save_articles category file_type articles s =
  Ok tt (mkState (world s)
           (trace s ++ [WriteFile (file_name category (today (world s)) file_type)
                                  (file_data file_type articles)])).
Proof.
  intros Hrec. unfold save_articles, file_data, file_name.
  assert (Hcsv : forall filename,
             save_to_csv articles filename s =
             Ok tt (mkState (world s)
                      (trace s ++ [WriteFile filename
                         (CsvFile (FIELDNAMES :: fst (csv_rows FIELDNAMES articles)))]))).
  { intros filename. unfold save_to_csv.
    pose proof (csv_rows_ok articles Hrec) as Hok.
    destruct (csv_rows FIELDNAMES articles) as [rows e]. cbn in Hok. subst e.
    reflexivity. }
  destruct (String.eqb file_type "csv") eqn:Ecsv.
  - apply String.eqb_eq in Ecsv. subst file_type. apply Hcsv.
  - destruct (String.eqb file_type "txt"); [reflexivity|].
    destruct (String.eqb file_type "xlsx"); [reflexivity|apply Hcsv].
Qed.

Lemma scrape_articles_run (fuel : nat) (category : string) (max_articles : Z)
      (file_type : string) (s : State World) :
  exists loop s1,
    while_loop fuel category max_articles 1 [] s = Ok loop s1 /\
    all_records (loop_articles loop) /\
    scrape_articles fuel category max_articles file_type s =
    match loop with
    | Running _ _ => Ok None s1
    | Exited articles =>
        Ok (Some articles)
           (mkState (world s1)
              (trace s1 ++ [WriteFile (file_name category (today (world s1)) file_type)
                                      (file_data file_type articles)]))
    end.
Proof.
  destruct (while_loop_invariant category max_articles fuel 1 [] s (Forall_nil _))
    as (added & loop & s1 & Hrun & Harts & Hadded & _).
  cbn [app] in Harts.
  exists loop, s1. split; [exact Hrun|]. split; [now rewrite Harts|].
  unfold scrape_articles, bind. rewrite Hrun.
  destruct loop as [page articles|articles]; [reflexivity|].
  cbn in Harts. subst added. rewrite save_articles_run by assumption. reflexivity.
Qed.

(** ** The target count bounds the collection *)

(** C1: for a target count N >= 1 the collected articles never number more
    than N: after any number of rounds of the while loop, whether it has
    ended or not; after any part of the for loop over a page; and in what
    scrape_articles saves when it returns, a list of between 0 and N articles.
    The loop does return as soon as some listing page gives no links. *)
Theorem scrape_articles_at_most_target
        (category file_type : string) (N : Z) (s : State World) (HN : 1 <= N) :
  (forall fuel, exists loop s',
      while_loop fuel category N 1 [] s = Ok loop s' /\
      all_records (loop_articles loop) /\
      len (loop_articles loop) <= N) /\
  (forall links articles s1,
      all_records articles -> len articles <= N ->
      exists articles' s2,
        for_links N links articles s1 = Ok articles' s2 /\
        len articles <= len articles' <= N) /\
  (forall fuel articles s',
      scrape_articles fuel category N file_type s = Ok (Some articles) s' ->
      0 <= len articles <= N) /\
  (forall k, 1 <= k -> (forall w, listing_links category k w = []) ->
      exists articles s',
        scrape_articles (Z.to_nat k) category N file_type s = Ok (Some articles) s' /\
        0 <= len articles <= N).
Proof.
  assert (Hloop : forall fuel, exists loop s',
             while_loop fuel category N 1 [] s = Ok loop s' /\
             all_records (loop_articles loop) /\
             len (loop_articles loop) <= N).
  { intros fuel.
    destruct (while_loop_invariant category N fuel 1 [] s (Forall_nil _))
      as (added & loop & s' & Hrun & Harts & Hadded & Hlen & _).
    exists loop, s'. split; [exact Hrun|]. rewrite Harts.
    split; [exact Hadded|].
    change (len (@nil Dict)) with 0 in Hlen. lia. }
  assert (Hret : forall fuel articles s',
             scrape_articles fuel category N file_type s = Ok (Some articles) s' ->
             0 <= len articles <= N).
  { intros fuel articles s' Hrun.
    destruct (Hloop fuel) as (loop & s1 & Hwhile & _ & Hlen).
    destruct (scrape_articles_run fuel category N file_type s)
      as (loop' & s1' & Hwhile' & _ & Hscrape).
    rewrite Hwhile in Hwhile'. injection Hwhile' as <- <-.
    rewrite Hscrape in Hrun. destruct loop as [page arts|arts]; [discriminate|].
    injection Hrun as <- _. split; [apply len_nonneg|exact Hlen]. }
  split; [exact Hloop|]. split; [|split; [exact Hret|]].
  - intros links articles s1 Hrec Hlen.
    destruct (for_links_invariant N links articles s1 Hrec)
      as (added & s2 & Hrun & _ & Hbound & _).
    exists (articles ++ added)%list, s2. split; [exact Hrun|].
    unfold len in *. rewrite length_app in *. lia.
  - intros k Hk Hend.
    destruct (while_loop_exits category N k Hend (Z.to_nat k) 1 [] s (Forall_nil _))
      as (articles & s1 & Hwhile); [lia|lia|].
    destruct (scrape_articles_run (Z.to_nat k) category N file_type s)
      as (loop' & s1' & Hwhile' & _ & Hscrape).
    rewrite Hwhile in Hwhile'. injection Hwhile' as <- <-.
    eexists. eexists. split; [exact Hscrape|].
    eapply Hret. exact Hscrape.
Qed.

(** ** URLs are collected once *)

(** C2: the URL fields of the collected articles are pairwise distinct after
    any number of rounds (and every article has one); a candidate whose joined
    URL is exactly the URL of a collected article changes nothing, so it is
    neither requested nor appended again; and a candidate whose joined URL
    is not exactly equal to any collected URL is requested as a new one. *)
Theorem accumulated_urls_distinct
        (category : string) (max_articles : Z) (s : State World) :
  (forall fuel, exists loop s',
      while_loop fuel category max_articles 1 [] s = Ok loop s' /\
      NoDup (urls (loop_articles loop)) /\
      Forall (fun a => exists u, dict_get "URL" a = Some u) (loop_articles loop)) /\
  (forall h rest articles s1,
      all_records articles ->
      In (Some (urljoin BASE_URL h)) (urls articles) ->
      for_links max_articles (Some h :: rest) articles s1 =
      for_links max_articles rest articles s1) /\
  (forall h rest articles s1,
      all_records articles ->
      len articles < max_articles ->
      not_an_article (Some h) = false ->
      ~ In (Some (urljoin BASE_URL h)) (urls articles) ->
      for_links max_articles (Some h :: rest) articles s1 =
      for_links max_articles rest
        (match fst (http_get (urljoin BASE_URL h) (world s1)) with
         | Some (String _ _ as html) =>
             articles ++ [article_of (BeautifulSoup html) (urljoin BASE_URL h)]
         | _ => articles
         end)%list
        (after_candidate (urljoin BASE_URL h) s1)).
Proof.
  split; [|split].
  - intros fuel.
    destruct (while_loop_invariant category max_articles fuel 1 [] s (Forall_nil _))
      as (added & loop & s' & Hrun & Harts & Hadded & _ & Hnodup).
    exists loop, s'. split; [exact Hrun|]. rewrite Harts. cbn [app] in *.
    split; [apply Hnodup; constructor|].
    eapply Forall_impl; [|exact Hadded]. apply record_has_url.
  - intros h rest articles s1 Hrec Hin.
    apply for_links_seen; [exact Hrec|]. apply url_in_spec, Hin.
  - intros h rest articles s1 Hrec Hlt Hna Hin.
    apply for_links_candidate; auto. apply url_in_false, Hin.
Qed.

(** ** Links that are not articles *)

(** C7: a candidate without an href (or with an empty one), or whose href
    contains "/photos/" or "/videos/", leaves the loop as if it were not on
    the page, wherever it stands among the links: nothing is requested for it,
    nothing is appended, and the count toward the target is unchanged. *)
Theorem non_article_link_excluded
        (max_articles : Z) (href : option string) (l1 l2 : list (option string))
        (articles : list Dict) (s : State World) :
  href = None \/ href = Some "" \/
  (exists h, href = Some h /\
             (contains "/photos/" h = true \/ contains "/videos/" h = true)) ->
  for_links max_articles [href] articles s = Ok articles s /\
  for_links max_articles (l1 ++ href :: l2) articles s =
  for_links max_articles (l1 ++ l2) articles s.
Proof.
  intros Hhref.
  assert (Hna : not_an_article href = true).
  { destruct Hhref as [->|[->|(h & -> & [Hp|Hv])]]; try reflexivity;
      cbn; rewrite ?Hp, ?Hv; destruct (truthy_str h); cbn;
      rewrite ?orb_true_r; reflexivity. }
  split.
  - rewrite for_links_continue by exact Hna. reflexivity.
  - rewrite !for_links_app.
    destruct (for_links max_articles l1 articles s) as [articles' s'|e s'];
      [|reflexivity].
    apply for_links_continue, Hna.
Qed.

(** ** Requests that fail *)

(** A round over a page with links always goes on to the next page. *)
Lemma while_round_continues (category : string) (max_articles page : Z)
      (articles : list Dict) (s : State World) :
  all_records articles ->
  len articles < max_articles ->
  listing_links category page (world s) <> [] ->
  exists added s2,
    for_links max_articles (listing_links category page (world s)) articles
              (after_listing category page s) = Ok (articles ++ added)%list s2 /\
    while_round category max_articles page articles s =
    Ok (Running (page + 1) (articles ++ added)%list)
       (mkState (time_sleep WAIT_TIME (world s2)) (trace s2 ++ [Sleep WAIT_TIME])).
Proof.
  intros Hrec Hlt Hlinks.
  destruct (for_links_invariant max_articles (listing_links category page (world s))
              articles (after_listing category page s) Hrec)
    as (added & s2 & Hrun & _).
  exists added, s2. split; [exact Hrun|].
  rewrite while_round_run. cbv zeta.
  destruct (Z.ltb_spec (len articles) max_articles) as [_|Hge]; [|lia].
  unfold listing_links, after_listing in *.
  destruct (fst (http_get (listing_url category page) (world s)))
    as [[|c html]|]; try congruence.
  destruct (select_cartHolder (BeautifulSoup (String c html))) as [|l ls];
    [congruence|].
  rewrite Hrun. reflexivity.
Qed.

(** C3: when the request for the listing page of the cursor fails (or gives
    an empty document), whatever page the loop has reached, the loop ends at
    once with the articles collected so far, and scrape_articles goes on to
    save exactly those and returns; nothing is raised.  With one round done
    (fuel0 = 1) this is a failure on page 2 giving the articles of page 1. *)
Theorem listing_fetch_failure_ends_loop
        (category file_type : string) (max_articles page : Z)
        (fuel0 fuel : nat) (articles : list Dict) (s s0 : State World) :
  while_loop fuel0 category max_articles 1 [] s = Ok (Running page articles) s0 ->
  len articles < max_articles ->
  truthy_ostr (fst (http_get (listing_url category page) (world s0))) = false ->
  let s1 := after_listing category page s0 in
  while_round category max_articles page articles s0 = Ok (Exited articles) s1 /\
  scrape_articles (fuel0 + S fuel) category max_articles file_type s =
  Ok (Some articles)
     (mkState (world s1)
        (trace s1 ++ [WriteFile (file_name category (today (world s1)) file_type)
                                (file_data file_type articles)])).
Proof.
  intros Hreach Hlt Hfail s1.
  assert (Hround : while_round category max_articles page articles s0 =
                   Ok (Exited articles) s1).
  { rewrite while_round_run. cbv zeta.
    destruct (Z.ltb_spec (len articles) max_articles) as [_|Hge]; [|lia].
    subst s1. unfold after_listing.
    falsy_response Hfail. }
  split; [exact Hround|].
  destruct (scrape_articles_run (fuel0 + S fuel) category max_articles file_type s)
    as (loop & s2 & Hwhile & _ & Hscrape).
  rewrite while_loop_add, Hreach in Hwhile.
  cbn [while_loop] in Hwhile. unfold bind, ret in Hwhile. rewrite Hround in Hwhile.
  cbv beta iota in Hwhile.
  injection Hwhile as <- <-. exact Hscrape.
Qed.

(** C6: when the article request of a candidate fails, extract_article gives
    no record, the candidate is passed over with the articles unchanged, and
    the for loop goes on with the next candidate; and the round of the while
    loop over a page with links ends by moving to the next page, not by
    leaving the loop. *)
Theorem failed_extraction_skips_candidate
        (category : string) (max_articles page : Z) (h : string)
        (rest : list (option string)) (articles : list Dict) (s s0 : State World) :
  all_records articles ->
  len articles < max_articles ->
  not_an_article (Some h) = false ->
  ~ In (Some (urljoin BASE_URL h)) (urls articles) ->
  truthy_ostr (fst (http_get (urljoin BASE_URL h) (world s))) = false ->
  listing_links category page (world s0) <> [] ->
  (exists s1, extract_article (urljoin BASE_URL h) s = Ok None s1) /\
  for_links max_articles (Some h :: rest) articles s =
  for_links max_articles rest articles (after_candidate (urljoin BASE_URL h) s) /\
  (exists articles' s', for_links max_articles rest articles
                          (after_candidate (urljoin BASE_URL h) s)
                        = Ok articles' s') /\
  (exists articles' s',
      while_round category max_articles page articles s0 =
      Ok (Running (page + 1) articles') s').
Proof.
  intros Hrec Hlt Hna Hin Hfail Hlinks.
  split; [|split; [|split]].
  - rewrite extract_article_run. eexists. falsy_response Hfail.
  - rewrite for_links_candidate by (auto; apply url_in_false, Hin).
    falsy_response Hfail.
  - destruct (for_links_invariant max_articles rest articles
                (after_candidate (urljoin BASE_URL h) s) Hrec)
      as (added & s' & Hrun & _).
    eauto.
  - destruct (while_round_continues category max_articles page articles s0
                Hrec Hlt Hlinks) as (added & s2 & _ & Hround).
    eauto.
Qed.

(** C10: a failed extraction leaves the articles as they were and the URL
    unseen: the duplicate test on it is still false, and when the same href
    comes next it is requested again, and appended if this second request
    gives a document. *)
Theorem failed_extraction_not_remembered
        (max_articles : Z) (h : string) (rest : list (option string))
        (articles : list Dict) (s : State World) :
  all_records articles ->
  len articles < max_articles ->
  not_an_article (Some h) = false ->
  ~ In (Some (urljoin BASE_URL h)) (urls articles) ->
  truthy_ostr (fst (http_get (urljoin BASE_URL h) (world s))) = false ->
  let u := urljoin BASE_URL h in
  let s1 := after_candidate u s in
  for_links max_articles (Some h :: rest) articles s =
  for_links max_articles rest articles s1 /\
  any_url_eq u articles s1 = Ok false s1 /\
  for_links max_articles (Some h :: Some h :: rest) articles s =
  for_links max_articles rest
    (match fst (http_get u (world s1)) with
     | Some (String _ _ as html) => articles ++ [article_of (BeautifulSoup html) u]
     | _ => articles
     end)%list
    (after_candidate u s1) /\
  trace (after_candidate u s1) =
  (trace s ++ [Fetch u; Sleep WAIT_TIME; Fetch u; Sleep WAIT_TIME])%list.
Proof.
  intros Hrec Hlt Hna Hin Hfail u s1.
  assert (Hurl : url_in u articles = false) by (apply url_in_false, Hin).
  assert (Hfirst : forall rest',
             for_links max_articles (Some h :: rest') articles s =
             for_links max_articles rest' articles s1).
  { intros rest'. rewrite for_links_candidate by auto. unfold s1, u.
    falsy_response Hfail. }
  split; [apply Hfirst|]. split.
  - rewrite any_url_eq_run by exact Hrec. now rewrite Hurl.
  - split.
    + rewrite Hfirst. apply for_links_candidate; auto.
    + unfold s1, after_candidate. cbn [trace]. rewrite <- app_assoc. reflexivity.
Qed.

(** ** Pages of new articles *)

Lemma for_links_fresh (max_articles : Z) (hrefs : list string) :
  forall (articles : list Dict) (s : State World),
    all_records articles ->
    len articles + len hrefs <= max_articles ->
    Forall good_href hrefs ->
    NoDup (map (urljoin BASE_URL) hrefs) ->
    (forall h, In h hrefs -> ~ In (Some (urljoin BASE_URL h)) (urls articles)) ->
    exists added s',
      for_links max_articles (map Some hrefs) articles s =
      Ok (articles ++ added)%list s' /\
      all_records added /\
      urls added = map (fun h => Some (urljoin BASE_URL h)) hrefs /\
      trace s' = (trace s ++ visits hrefs)%list.
Proof.
  induction hrefs as [|h hs IH]; intros articles s Hrec Hlen Hgood Hnd Hnew.
  - exists [], s. rewrite !app_nil_r. repeat split. constructor.
  - inversion Hgood as [|? ? [Hna Hget] Hgood']; subst.
    inversion Hnd as [|? ? Hh Hnd']; subst.
    assert (Hlt : len articles < max_articles).
    { unfold len in *. cbn [length] in Hlen. lia. }
    cbn [map]. rewrite for_links_candidate; auto;
      [|apply url_in_false, Hnew; now left].
    specialize (Hget (world s)).
    destruct (fst (http_get (urljoin BASE_URL h) (world s))) as [[|c html]|];
      try discriminate.
    set (a := article_of (BeautifulSoup (String c html)) (urljoin BASE_URL h)).
    destruct (IH (articles ++ [a])%list (after_candidate (urljoin BASE_URL h) s))
      as (added & s' & Hrun & Hadded & Hurls & Htrace).
    + apply all_records_app; [exact Hrec|]. repeat constructor.
    + rewrite len_app_one. unfold len in *. cbn [length] in Hlen. lia.
    + exact Hgood'.
    + exact Hnd'.
    + intros h' Hin'. unfold urls. rewrite map_app, in_app_iff. cbn [map].
      intros [Hold|[Heq|[]]].
      * apply (Hnew h'); [now right|exact Hold].
      * subst a. rewrite article_of_url in Heq. injection Heq as Heq.
        apply Hh. rewrite Heq. apply in_map, Hin'.
    + exists (a :: added), s'.
      rewrite <- app_assoc in Hrun. cbn [app] in Hrun.
      split; [exact Hrun|]. split; [constructor; [reflexivity|exact Hadded]|].
      split.
      * cbn [urls map]. unfold urls in Hurls. rewrite Hurls.
        subst a. rewrite article_of_url. reflexivity.
      * rewrite Htrace. unfold after_candidate. cbn [trace visits flat_map].
        rewrite <- app_assoc. reflexivity.
Qed.

Lemma while_round_fresh (category : string) (max_articles page : Z)
      (html : string) (hrefs : list string) (articles : list Dict) (s : State World) :
  all_records articles ->
  hrefs <> [] ->
  len articles + len hrefs <= max_articles ->
  fst (http_get (listing_url category page) (world s)) = Some html ->
  truthy_str html = true ->
  select_cartHolder (BeautifulSoup html) = map Some hrefs ->
  Forall good_href hrefs ->
  NoDup (map (urljoin BASE_URL) hrefs) ->
  (forall h, In h hrefs -> ~ In (Some (urljoin BASE_URL h)) (urls articles)) ->
  exists added s',
    while_round category max_articles page articles s =
    Ok (Running (page + 1) (articles ++ added)%list) s' /\
    all_records added /\
    urls added = map (fun h => Some (urljoin BASE_URL h)) hrefs /\
    trace s' = (trace s ++ [Fetch (listing_url category page)] ++ visits hrefs
                        ++ [Sleep WAIT_TIME])%list.
Proof.
  intros Hrec Hne Hlen Hget Hhtml Hlinks Hgood Hnd Hnew.
  destruct (for_links_fresh max_articles hrefs articles
              (after_listing category page s) Hrec Hlen Hgood Hnd Hnew)
    as (added & s2 & Hrun & Hadded & Hurls & Htrace).
  exists added. eexists. split; [|split; [exact Hadded|split; [exact Hurls|]]].
  - rewrite while_round_run. cbv zeta.
    destruct (Z.ltb_spec (len articles) max_articles) as [_|Hge].
    2:{ destruct hrefs; [congruence|]. unfold len in *. cbn [length] in Hlen. lia. }
    rewrite Hget. destruct html as [|c html]; [discriminate|].
    rewrite Hlinks. unfold after_listing in Hrun.
    destruct hrefs as [|h hs]; [congruence|]. cbn [map] in *.
    rewrite Hrun. reflexivity.
  - cbn [trace]. rewrite Htrace. unfold after_listing. cbn [trace].
    rewrite <- !app_assoc. reflexivity.
Qed.

Lemma append_cancel_l (p a b : string) : (p ++ a = p ++ b)%string -> a = b.
Proof.
  induction p as [|c p IH]; cbn; intros H; [exact H|].
  injection H as H. apply IH, H.
Qed.

Lemma listing_url_first (category : string) :
  listing_url category 1 = BASE_URL ++ "/" ++ category ++ "/".
Proof. reflexivity. Qed.

Lemma listing_url_later (category : string) (n : Z) :
  1 < n ->
  listing_url category n = BASE_URL ++ "/" ++ category ++ "/page-" ++ str_int n.
Proof.
  intros Hn. unfold listing_url.
  destruct (Z.eqb_spec n 1); [lia|reflexivity].
Qed.

Lemma listing_url_3_not_1_2 (category : string) :
  listing_url category 3 <> listing_url category 1 /\
  listing_url category 3 <> listing_url category 2.
Proof.
  split; intros H; unfold listing_url in H; cbn [Z.eqb Pos.eqb] in H;
    do 3 apply append_cancel_l in H; discriminate.
Qed.

Lemma not_in_visits (url : string) (hrefs : list string) :
  (forall h, In h hrefs -> urljoin BASE_URL h <> url) ->
  ~ In (Fetch url) (visits hrefs).
Proof.
  intros Hne. unfold visits. rewrite in_flat_map.
  intros (h & Hin & [Heq|[Heq|[]]]); [|discriminate].
  injection Heq as Heq. exact (Hne h Hin Heq).
Qed.

(** ** Two full pages reach a target of ten *)

(** C5: with listing pages 1 and 2 each giving five article links that pass
    the filter, join to ten different URLs and can all be extracted, a target
    count of 10 makes scrape_articles return ten articles, with exactly those
    ten distinct URLs in page order.  The events of the run are: the request
    for page 1, the five articles of page 1, the request for page 2, the five
    articles of page 2, and the file write; so page 3 is not requested
    (whatever it holds).  Page 1 is requested at the bare category path and
    every later page n at the path ending in "page-n". *)
Theorem three_pages_target_ten
        (category file_type html1 html2 : string) (hrefs1 hrefs2 : list string)
        (fuel : nat) (s : State World) :
  (forall w, fst (http_get (listing_url category 1) w) = Some html1) ->
  (forall w, fst (http_get (listing_url category 2) w) = Some html2) ->
  truthy_str html1 = true ->
  truthy_str html2 = true ->
  select_cartHolder (BeautifulSoup html1) = map Some hrefs1 ->
  select_cartHolder (BeautifulSoup html2) = map Some hrefs2 ->
  length hrefs1 = 5%nat ->
  length hrefs2 = 5%nat ->
  Forall good_href (hrefs1 ++ hrefs2) ->
  NoDup (map (urljoin BASE_URL) (hrefs1 ++ hrefs2)) ->
  exists articles s' events,
    scrape_articles (3 + fuel) category 10 file_type s = Ok (Some articles) s' /\
    length articles = 10%nat /\
    urls articles = map (fun h => Some (urljoin BASE_URL h)) (hrefs1 ++ hrefs2) /\
    NoDup (urls articles) /\
    trace s' = (trace s ++ events)%list /\
    events =
      ([Fetch (listing_url category 1)] ++ visits hrefs1 ++ [Sleep WAIT_TIME] ++
       [Fetch (listing_url category 2)] ++ visits hrefs2 ++ [Sleep WAIT_TIME] ++
       [WriteFile (file_name category (today (world s')) file_type)
                  (file_data file_type articles)])%list /\
    ((forall h, In h (hrefs1 ++ hrefs2) ->
                urljoin BASE_URL h <> listing_url category 3) ->
     ~ In (Fetch (listing_url category 3)) events) /\
    listing_url category 1 = BASE_URL ++ "/" ++ category ++ "/" /\
    (forall n, 1 < n ->
       listing_url category n =
       BASE_URL ++ "/" ++ category ++ "/page-" ++ str_int n).
Proof.
  intros Hget1 Hget2 Hhtml1 Hhtml2 Hlinks1 Hlinks2 Hlen1 Hlen2 Hgood Hnd.
  apply Forall_app in Hgood. destruct Hgood as [Hgood1 Hgood2].
  rewrite map_app in Hnd.
  pose proof (NoDup_app_remove_r _ _ Hnd) as Hnd1.
  pose proof (NoDup_app_remove_l _ _ Hnd) as Hnd2.
  (* round 1 *)
  destruct (while_round_fresh category 10 1 html1 hrefs1 [] s) as
      (added1 & s1 & Hround1 & Hrec1 & Hurls1 & Htrace1); auto.
  { constructor. }
  { intros ->. discriminate. }
  { unfold len. rewrite Hlen1. cbn. lia. }
  (* round 2 *)
  cbn [app] in Hround1.
  assert (Hcount1 : length added1 = 5%nat).
  { rewrite <- Hlen1, <- (length_map (dict_get "URL") added1).
    fold (urls added1). rewrite Hurls1. apply length_map. }
  destruct (while_round_fresh category 10 2 html2 hrefs2 added1 s1) as
      (added2 & s2 & Hround2 & Hrec2 & Hurls2 & Htrace2); auto.
  { intros ->. discriminate. }
  { unfold len. rewrite Hcount1, Hlen2. cbn. lia. }
  { intros h Hin Hseen. rewrite Hurls1 in Hseen.
    apply in_map_iff in Hseen. destruct Hseen as (h' & Heq & Hin').
    injection Heq as Heq.
    apply (NoDup_app_disjoint _ _ Hnd (urljoin BASE_URL h'));
      [apply in_map, Hin'|].
    rewrite Heq. apply in_map, Hin. }
  assert (Hcount2 : length added2 = 5%nat).
  { rewrite <- Hlen2, <- (length_map (dict_get "URL") added2).
    fold (urls added2). rewrite Hurls2. apply length_map. }
  (* round 3: the target is reached *)
  assert (Hround3 : while_round category 10 (2 + 1) (added1 ++ added2)%list s2 =
                    Ok (Exited (added1 ++ added2)%list) s2).
  { rewrite while_round_run. unfold len. rewrite length_app, Hcount1, Hcount2.
    reflexivity. }
  destruct (scrape_articles_run (3 + fuel) category 10 file_type s)
    as (loop & s3 & Hwhile & _ & Hscrape).
  cbn [Nat.add while_loop] in Hwhile. unfold bind, ret in Hwhile.
  rewrite Hround1 in Hwhile. cbv beta iota in Hwhile.
  change (1 + 1) with 2 in Hwhile.
  rewrite Hround2 in Hwhile. cbv beta iota in Hwhile.
  rewrite Hround3 in Hwhile. cbv beta iota in Hwhile.
  injection Hwhile as <- <-.
  exists (added1 ++ added2)%list. eexists. eexists.
  split; [exact Hscrape|].
  assert (Hurls : urls (added1 ++ added2)%list =
                  map (fun h => Some (urljoin BASE_URL h)) (hrefs1 ++ hrefs2)).
  { unfold urls in *. rewrite !map_app, Hurls1, Hurls2. reflexivity. }
  split; [rewrite length_app, Hcount1, Hcount2; reflexivity|].
  split; [exact Hurls|].
  split.
  { rewrite Hurls, map_app.
    rewrite <- (map_map (urljoin BASE_URL) Some hrefs1).
    rewrite <- (map_map (urljoin BASE_URL) Some hrefs2).
    rewrite <- map_app.
    apply NoDup_map_Some, Hnd. }
  split.
  { cbn [trace]. rewrite Htrace2, Htrace1. rewrite <- !app_assoc. reflexivity. }
  split; [reflexivity|].
  split.
  { intros Hne. cbn [world].
    destruct (listing_url_3_not_1_2 category) as [H31 H32].
    rewrite !in_app_iff. intros Hin.
    assert (Hv1 : ~ In (Fetch (listing_url category 3)) (visits hrefs1)).
    { apply not_in_visits. intros h Hh. apply Hne, in_app_iff. now left. }
    assert (Hv2 : ~ In (Fetch (listing_url category 3)) (visits hrefs2)).
    { apply not_in_visits. intros h Hh. apply Hne, in_app_iff. now right. }
    cbn [In] in Hin.
    assert (Hinj : forall a b, Fetch a = Fetch b -> a = b)
      by (intros a b E; now injection E).
    repeat (destruct Hin as [Hin|Hin]); try contradiction; try discriminate;
      apply Hinj in Hin; congruence. }
  split; [apply listing_url_first|apply listing_url_later].
Qed.

(** ** The plain-text layout *)

Lemma combine_fst_snd {A B : Type} (l : list A) :
  forall l' : list B,
    length l = length l' ->
    map fst (combine l l') = l /\ map snd (combine l l') = l'.
Proof.
  induction l as [|x l IH]; intros [|y l'] H; try discriminate; cbn.
  - split; reflexivity.
  - injection H as H. destruct (IH l' H) as [-> ->]. split; reflexivity.
Qed.

Lemma append_assoc (a b c : string) : ((a ++ b) ++ c = a ++ b ++ c)%string.
Proof. induction a as [|x a IH]; cbn; [reflexivity|now rewrite IH]. Qed.

Lemma write_lines_app (l1 l2 : list string) :
  write_lines (l1 ++ l2) = (write_lines l1 ++ write_lines l2)%string.
Proof.
  induction l1 as [|l l1 IH]; cbn [app write_lines]; [reflexivity|].
  rewrite IH, !append_assoc. reflexivity.
Qed.

Lemma txt_items_lines (article : Dict) :
  txt_items article = write_lines (field_lines article).
Proof.
  induction article as [|[key value] rest IH]; [reflexivity|].
  cbn [txt_items field_lines flat_map fst snd app write_lines].
  fold (field_lines rest). rewrite IH, !append_assoc. reflexivity.
Qed.

Lemma txt_articles_lines (articles : list Dict) :
  forall k : nat,
    txt_articles (Z.of_nat k) articles =
    write_lines
      (flat_map (fun ia => txt_block (fst ia) (snd ia))
                (combine (map Z.of_nat (seq k (length articles))) articles)).
Proof.
  induction articles as [|a rest IH]; intros k; [reflexivity|].
  cbn [txt_articles length seq map combine flat_map fst snd].
  replace (Z.of_nat k + 1) with (Z.of_nat (S k)) by lia.
  rewrite IH, write_lines_app. unfold txt_block.
  cbn [write_lines]. rewrite write_lines_app, txt_items_lines.
  cbn [write_lines]. rewrite !append_assoc. reflexivity.
Qed.

Lemma repeat_char_length (c : ascii) (n : nat) :
  String.length (repeat_char c n) = n.
Proof. induction n as [|n IH]; cbn; [reflexivity|now rewrite IH]. Qed.

Lemma record_field_lines (a : Dict) :
  dict_keys a = FIELDNAMES ->
  field_lines a =
  flat_map (fun k => [k ++ ":"; dict_get_default k "" a; ""]) FIELDNAMES.
Proof.
  unfold dict_keys, FIELDNAMES. intros H.
  destruct a as [|[k1 v1] [|[k2 v2] [|[k3 v3] [|[k4 v4] [|[k5 v5] [|[k6 v6] [|]]]]]]];
    try discriminate.
  cbn [map fst] in H. injection H as -> -> -> -> -> ->.
  reflexivity.
Qed.

(** C8: save_to_txt writes, for the articles numbered 1..n in order, the
    lines of the described layout, each ended by a newline: the header
    "ARTICLE #i", a rule of 40 "=", for every field of the article its name
    with a colon, its value and a blank line, then a rule of 80 "-" and a
    blank line.  For two articles these are the block headed "ARTICLE #1"
    followed by the block headed "ARTICLE #2", and an article with the six
    fields has its six field blocks in the order of the field names. *)
Theorem save_to_txt_layout (articles : list Dict) (filename : string) (s : State World) :
  save_to_txt articles filename s =
  Ok tt (mkState (world s)
           (trace s ++ [WriteFile filename
                          (TextFile (write_lines (txt_layout articles)))])) /\
  map fst (numbered articles) = map Z.of_nat (seq 1 (length articles)) /\
  map snd (numbered articles) = articles /\
  (forall a1 a2,
      txt_layout [a1; a2] =
      ("ARTICLE #1" :: repeat_char "=" 40 ::
       field_lines a1 ++ [repeat_char "-" 80; ""] ++
       "ARTICLE #2" :: repeat_char "=" 40 ::
       field_lines a2 ++ [repeat_char "-" 80; ""])%list) /\
  (forall a, dict_keys a = FIELDNAMES ->
      field_lines a =
      flat_map (fun k => [k ++ ":"; dict_get_default k "" a; ""]) FIELDNAMES) /\
  String.length (repeat_char "=" 40) = 40%nat /\
  String.length (repeat_char "-" 80) = 80%nat.
Proof.
  split; [|split; [|split; [|split; [|split; [|split]]]]].
  - unfold save_to_txt, emit, txt_layout, numbered.
    change 1 with (Z.of_nat 1). rewrite txt_articles_lines. reflexivity.
  - unfold numbered.
    apply (combine_fst_snd (map Z.of_nat (seq 1 (length articles))) articles).
    rewrite length_map, length_seq. reflexivity.
  - unfold numbered.
    apply (combine_fst_snd (map Z.of_nat (seq 1 (length articles))) articles).
    rewrite length_map, length_seq. reflexivity.
  - intros a1 a2. unfold txt_layout, numbered, txt_block.
    cbn [length seq map combine flat_map fst snd]. rewrite app_nil_r.
    cbn [app]. rewrite <- app_assoc. reflexivity.
  - apply record_field_lines.
  - apply repeat_char_length.
  - apply repeat_char_length.
Qed.

(** ** The link filter, as a statement about substrings *)

Lemma prefix_iff_append (a b : string) :
  String.prefix a b = true <-> exists post, b = a ++ post.
Proof.
  revert b. induction a as [|c a IH]; intros [|d b]; cbn.
  - split; [intros _; exists ""; reflexivity|reflexivity].
  - split; [intros _; exists (String d b); reflexivity|reflexivity].
  - split; [discriminate|intros [post H]; discriminate].
  - destruct (ascii_dec c d) as [->|Hne].
    + rewrite IH. split; intros [post H]; exists post.
      * now rewrite H.
      * now injection H.
    + split; [discriminate|]. intros [post H]. injection H as H1 H2.
      now elim Hne.
Qed.

Lemma contains_iff_substring (needle hay : string) :
  contains needle hay = true <-> exists pre post, hay = pre ++ needle ++ post.
Proof.
  induction hay as [|c hay IH]; cbn [contains]; rewrite orb_true_iff.
  - rewrite prefix_iff_append. split.
    + intros [[post H]|H]; [|discriminate]. exists "", post. exact H.
    + intros (pre & post & H). left.
      destruct pre as [|d pre]; [|discriminate]. exists post. exact H.
  - rewrite prefix_iff_append, IH. split.
    + intros [[post H]|(pre & post & H)].
      * exists "", post. exact H.
      * exists (String c pre), post. cbn. now rewrite H.
    + intros (pre & post & H). destruct pre as [|d pre].
      * left. exists post. exact H.
      * right. cbn in H. injection H as _ H. exists pre, post. exact H.
Qed.

(** X1: the for loop passes over a link exactly when its href is absent or
    empty, or has "/photos/" or "/videos/" somewhere inside it (at the start,
    in the middle or at the end); every other link is a candidate. *)
Theorem not_an_article_iff_marker (href : option string) :
  not_an_article href = true <->
  href = None \/ href = Some "" \/
  (exists pre post, href = Some (pre ++ "/photos/" ++ post)) \/
  (exists pre post, href = Some (pre ++ "/videos/" ++ post)).
Proof.
  destruct href as [h|]; cbn [not_an_article].
  2:{ split; [now left|reflexivity]. }
  rewrite !orb_true_iff, !contains_iff_substring. split.
  - intros [[H|(pre & post & H)]|(pre & post & H)].
    + destruct h; [right; now left|discriminate].
    + right. right. left. exists pre, post. now rewrite H.
    + right. right. right. exists pre, post. now rewrite H.
  - intros [H|[H|[(pre & post & H)|(pre & post & H)]]]; try discriminate.
    + injection H as ->. left. now left.
    + injection H as ->. left. right. now exists pre, post.
    + injection H as ->. right. now exists pre, post.
Qed.

(** ** What is requested, and in which order *)

Lemma Subseq_nil_l {A : Type} (l : list A) : Subseq [] l.
Proof. induction l; constructor; assumption. Qed.

Lemma Subseq_length {A : Type} (sub l : list A) :
  Subseq sub l -> (length sub <= length l)%nat.
Proof. induction 1; cbn; lia. Qed.

Lemma Subseq_In {A : Type} (sub l : list A) :
  Subseq sub l -> forall x, In x sub -> In x l.
Proof.
  induction 1 as [|x sub l _ IH|x sub l _ IH]; intros y Hy.
  - exact Hy.
  - destruct Hy as [->|Hy]; [now left|right; now apply IH].
  - right. now apply IH.
Qed.

Lemma candidates_pass (links : list (option string)) (h : string) :
  In h (candidates links) ->
  In (Some h) links /\ not_an_article (Some h) = false.
Proof.
  unfold candidates. rewrite in_flat_map.
  intros ([h'|] & Hin & Hh); [|contradiction].
  destruct (not_an_article (Some h')) eqn:Hna; [contradiction|].
  destruct Hh as [->|[]]. split; assumption.
Qed.

Lemma for_links_visits (max_articles : Z) (links : list (option string)) :
  forall (articles : list Dict) (s : State World),
    all_records articles ->
    exists requested collected added s',
      for_links max_articles links articles s = Ok (articles ++ added)%list s' /\
      all_records added /\
      trace s' = (trace s ++ visits requested)%list /\
      Subseq requested (candidates links) /\
      Subseq collected requested /\
      urls added = map (fun h => Some (urljoin BASE_URL h)) collected.
Proof.
  induction links as [|href rest IH]; intros articles s Hrec.
  - exists [], [], [], s. rewrite !app_nil_r. repeat split; constructor.
  - destruct (Z.geb_spec (len articles) max_articles) as [Hge|Hlt].
    { exists [], [], [], s. rewrite !app_nil_r, for_links_break by lia.
      repeat split; try constructor. apply Subseq_nil_l. }
    destruct (not_an_article href) eqn:Hna.
    { rewrite for_links_continue by exact Hna.
      destruct (IH articles s Hrec)
        as (requested & collected & added & s' & Hrun & Hadd & Htr & Hreq & Hcol & Hurls).
      exists requested, collected, added, s'. repeat (split; [assumption|]).
      split; [|split; assumption].
      unfold candidates. cbn [flat_map]. rewrite Hna.
      destruct href; exact Hreq. }
    destruct href as [h|]; [|discriminate].
    assert (Hcand : candidates (Some h :: rest) = h :: candidates rest).
    { unfold candidates. cbn [flat_map]. rewrite Hna. reflexivity. }
    destruct (url_in (urljoin BASE_URL h) articles) eqn:Hin.
    { rewrite for_links_seen by assumption.
      destruct (IH articles s Hrec)
        as (requested & collected & added & s' & Hrun & Hadd & Htr & Hreq & Hcol & Hurls).
      exists requested, collected, added, s'. repeat (split; [assumption|]).
      split; [|split; assumption].
      rewrite Hcand. constructor. exact Hreq. }
    rewrite for_links_candidate by assumption. rewrite Hcand.
    destruct (fst (http_get (urljoin BASE_URL h) (world s))) as [[|c html]|].
    1,3: destruct (IH articles (after_candidate (urljoin BASE_URL h) s) Hrec)
        as (requested & collected & added & s' & Hrun & Hadd & Htr & Hreq & Hcol & Hurls);
      exists (h :: requested), collected, added, s';
      (split; [exact Hrun|]); (split; [exact Hadd|]);
      (split; [rewrite Htr; unfold after_candidate; cbn [trace visits flat_map];
               rewrite <- app_assoc; reflexivity|]);
      (split; [constructor; exact Hreq|]);
      (split; [constructor; exact Hcol|exact Hurls]).
    set (a := article_of (BeautifulSoup (String c html)) (urljoin BASE_URL h)).
    destruct (IH (articles ++ [a])%list (after_candidate (urljoin BASE_URL h) s))
      as (requested & collected & added & s' & Hrun & Hadd & Htr & Hreq & Hcol & Hurls).
    { apply all_records_app; [exact Hrec|]. repeat constructor. }
    exists (h :: requested), (h :: collected), (a :: added), s'.
    rewrite <- app_assoc in Hrun. cbn [app] in Hrun.
    split; [exact Hrun|]. split; [constructor; [reflexivity|exact Hadd]|].
    split; [rewrite Htr; unfold after_candidate; cbn [trace visits flat_map];
            rewrite <- app_assoc; reflexivity|].
    split; [constructor; exact Hreq|].
    split; [constructor; exact Hcol|].
    cbn [urls map]. unfold urls in Hurls. rewrite Hurls.
    subst a. rewrite article_of_url. reflexivity.
Qed.

(** X2: one run of the for loop over a page asks only for article pages of
    links that pass the filter, at most once per such link and in page order,
    each request followed at once by the pause; the articles it appends are
    those of some of the requested links, again in page order, under the URL
    that was requested.  So no more requests are made than the page has
    links, and no article of a photo or video link is ever collected. *)
Theorem for_links_requests_in_page_order
        (max_articles : Z) (links : list (option string))
        (articles : list Dict) (s : State World) :
  all_records articles ->
  exists requested collected added s',
    for_links max_articles links articles s = Ok (articles ++ added)%list s' /\
    trace s' = (trace s ++ visits requested)%list /\
    Subseq requested (candidates links) /\
    Subseq collected requested /\
    urls added = map (fun h => Some (urljoin BASE_URL h)) collected /\
    (length added <= length requested <= length links)%nat /\
    Forall (fun h => In (Some h) links /\ not_an_article (Some h) = false) requested.
Proof.
  intros Hrec.
  destruct (for_links_visits max_articles links articles s Hrec)
    as (requested & collected & added & s' & Hrun & _ & Htr & Hreq & Hcol & Hurls).
  exists requested, collected, added, s'.
  repeat (split; [assumption|]). split.
  - pose proof (Subseq_length _ _ Hreq) as H1.
    pose proof (Subseq_length _ _ Hcol) as H2.
    assert (H3 : (length (candidates links) <= length links)%nat).
    { clear. unfold candidates. induction links as [|[h|] l IH]; cbn; [lia| |lia].
      destruct (negb (truthy_str h) || contains "/photos/" h || contains "/videos/" h);
        cbn; lia. }
    assert (H4 : length added = length collected).
    { rewrite <- (length_map (dict_get "URL") added). fold (urls added).
      rewrite Hurls. apply length_map. }
    lia.
  - apply Forall_forall. intros h Hh.
    apply candidates_pass. eapply Subseq_In; eassumption.
Qed.


(** One round: it ends the loop with at most the request for the listing
    page, or it is a full round that moves the cursor by one. *)
Lemma while_round_events (category : string) (max_articles page : Z)
      (articles : list Dict) (s : State World) :
  all_records articles ->
  exists loop s',
    while_round category max_articles page articles s = Ok loop s' /\
    all_records (loop_articles loop) /\
    ((loop = Exited articles /\
      (trace s' = trace s \/
       trace s' = (trace s ++ [Fetch (listing_url category page)])%list)) \/
     (exists articles' requested,
         loop = Running (page + 1) articles' /\
         trace s' = (trace s ++ round_events category page requested)%list)).
Proof.
  intros Hrec. rewrite while_round_run. cbv zeta.
  destruct (len articles <? max_articles).
  2:{ exists (Exited articles), s. split; [reflexivity|]. split; [exact Hrec|].
      left. split; [reflexivity|now left]. }
  assert (Hstop : exists loop s',
             Ok (Exited articles) (after_listing category page s) = Ok loop s' /\
             all_records (loop_articles loop) /\
             ((loop = Exited articles /\
               (trace s' = trace s \/
                trace s' = (trace s ++ [Fetch (listing_url category page)])%list)) \/
              (exists articles' requested,
                  loop = Running (page + 1) articles' /\
                  trace s' = (trace s ++ round_events category page requested)%list))).
  { exists (Exited articles), (after_listing category page s).
    split; [reflexivity|]. split; [exact Hrec|].
    left. split; [reflexivity|now right]. }
  unfold after_listing in Hstop.
  destruct (fst (http_get (listing_url category page) (world s)))
    as [[|c html]|]; try exact Hstop.
  destruct (select_cartHolder (BeautifulSoup (String c html))) as [|l ls];
    [exact Hstop|].
  destruct (for_links_visits max_articles (l :: ls) articles
              (after_listing category page s) Hrec)
    as (requested & collected & added & s2 & Hrun & Hadd & Htr & _).
  unfold after_listing in Hrun. rewrite Hrun.
  eexists. eexists. split; [reflexivity|].
  split; [apply all_records_app; assumption|].
  right. exists (articles ++ added)%list, requested. split; [reflexivity|].
  cbn [trace]. rewrite Htr. unfold after_listing, round_events. cbn [trace].
  rewrite <- !app_assoc. reflexivity.
Qed.

Lemma while_loop_events (category : string) (max_articles : Z) (fuel : nat) :
  forall (page : Z) (articles : list Dict) (s : State World),
    all_records articles ->
    exists rounds last loop s',
      while_loop fuel category max_articles page articles s = Ok loop s' /\
      trace s' = (trace s ++ rounds_events category page rounds ++ last)%list /\
      (length rounds <= fuel)%nat /\
      match loop with
      | Running page' _ => last = [] /\ page' = page + len rounds /\ length rounds = fuel
      | Exited _ =>
          (last = [] \/ last = [Fetch (listing_url category (page + len rounds))]) /\
          (length rounds < fuel)%nat
      end.
Proof.
  induction fuel as [|fuel IH]; intros page articles s Hrec.
  - exists [], [], (Running page articles), s. cbn [while_loop rounds_events app length].
    rewrite app_nil_r. unfold ret. repeat split; unfold len; cbn; lia.
  - cbn [while_loop]. unfold bind.
    destruct (while_round_events category max_articles page articles s Hrec)
      as (loop & s1 & Hrun & Hrec1 & Hcase).
    rewrite Hrun.
    destruct Hcase as [[-> Htr]|(articles' & requested & -> & Htr)].
    + exists [], (skipn (length (trace s)) (trace s1)), (Exited articles), s1.
      cbn [rounds_events app length]. split; [reflexivity|].
      change (len (@nil (list string))) with 0. rewrite Z.add_0_r.
      destruct Htr as [Htr|Htr]; rewrite Htr.
      * rewrite skipn_all, app_nil_r. repeat split; [lia|now left|lia].
      * rewrite skipn_app, skipn_all, Nat.sub_diag. cbn [skipn app].
        repeat split; [lia|now right|lia].
    + cbn [loop_articles] in Hrec1.
      destruct (IH (page + 1) articles' s1 Hrec1)
        as (rounds & last & loop & s2 & Hrun2 & Htr2 & Hlen & Hloop).
      exists (requested :: rounds), last, loop, s2.
      split; [exact Hrun2|]. split.
      { rewrite Htr2, Htr. cbn [rounds_events]. rewrite <- !app_assoc. reflexivity. }
      split; [cbn; lia|].
      replace (page + len (requested :: rounds)) with (page + 1 + len rounds)
        by (unfold len; cbn [length]; lia).
      destruct loop as [page' a|a].
      * destruct Hloop as (H1 & H2 & H3). repeat split; [exact H1|exact H2|cbn; lia].
      * destruct Hloop as (H1 & H2). split; [exact H1|cbn; lia].
Qed.

(** X3: the events of a run of scrape_articles that returns are, in order:
    full rounds over the listing pages 1, 2, 3, ... (the request for the page,
    then the article requests, each with its pause, then the pause of the
    round), possibly one last request for the next listing page (the one
    that gave nothing), and then the single file write.  No listing page is
    skipped or asked for out of order, and nothing is written before the end. *)
Theorem scrape_articles_events
        (fuel : nat) (category file_type : string) (max_articles : Z)
        (articles : list Dict) (s s' : State World) :
  scrape_articles fuel category max_articles file_type s = Ok (Some articles) s' ->
  exists rounds last,
    trace s' =
    (trace s ++ rounds_events category 1 rounds ++ last ++
     [WriteFile (file_name category (today (world s')) file_type)
                (file_data file_type articles)])%list /\
    (last = [] \/ last = [Fetch (listing_url category (1 + len rounds))]) /\
    (length rounds < fuel)%nat.
Proof.
  intros Hret.
  destruct (scrape_articles_run fuel category max_articles file_type s)
    as (loop & s1 & Hwhile & _ & Hscrape).
  destruct (while_loop_events category max_articles fuel 1 [] s (Forall_nil _))
    as (rounds & last & loop' & s1' & Hwhile' & Htr & Hlen & Hloop).
  rewrite Hwhile in Hwhile'. injection Hwhile' as <- <-.
  rewrite Hscrape in Hret. destruct loop as [page a|a]; [discriminate|].
  injection Hret as <- <-.
  exists rounds, last. cbn [trace world]. rewrite Htr.
  split; [rewrite <- !app_assoc; reflexivity|]. exact Hloop.
Qed.

(** ** Edge cases of the loop *)

Lemma scrape_articles_no_round
      (fuel : nat) (category file_type : string) (max_articles : Z)
      (s : State World) :
  max_articles <= 0 ->
  scrape_articles (S fuel) category max_articles file_type s =
  Ok (Some [])
     (mkState (world s)
        (trace s ++ [WriteFile (file_name category (today (world s)) file_type)
                               (file_data file_type [])])).
Proof.
  intros Hmax.
  destruct (scrape_articles_run (S fuel) category max_articles file_type s)
    as (loop & s1 & Hwhile & _ & Hscrape).
  cbn [while_loop] in Hwhile. unfold bind in Hwhile.
  rewrite while_round_run in Hwhile.
  change (len (@nil Dict)) with 0 in Hwhile.
  destruct (Z.ltb_spec 0 max_articles) as [Hlt|_]; [lia|].
  injection Hwhile as <- <-. exact Hscrape.
Qed.

(** X4: with a target count of zero or less, scrape_articles asks for
    nothing and pauses nowhere; it writes the file for an empty list of
    articles (for the csv type, the header row alone) and returns. *)
Theorem scrape_articles_nonpositive_target
        (fuel : nat) (category file_type : string) (max_articles : Z)
        (s : State World) :
  max_articles <= 0 ->
  scrape_articles (S fuel) category max_articles file_type s =
  Ok (Some [])
     (mkState (world s)
        (trace s ++ [WriteFile (file_name category (today (world s)) file_type)
                               (file_data file_type [])])) /\
  file_data "csv" [] = CsvFile [FIELDNAMES] /\
  file_data "txt" [] = TextFile "" /\
  file_data "xlsx" [] = XlsxFile "Scraped Articles" [FIELDNAMES].
Proof.
  intros Hmax. split; [now apply scrape_articles_no_round|].
  repeat split.
Qed.

(** X5: a listing page that was fetched but has no card link ends the loop
    at once, at whatever cursor: no pause follows, the articles collected so
    far are saved as they are, and the function returns. *)
Theorem empty_listing_page_ends_loop
        (category file_type html : string) (max_articles page : Z)
        (fuel0 fuel : nat) (articles : list Dict) (s s0 : State World) :
  while_loop fuel0 category max_articles 1 [] s = Ok (Running page articles) s0 ->
  len articles < max_articles ->
  fst (http_get (listing_url category page) (world s0)) = Some html ->
  select_cartHolder (BeautifulSoup html) = [] ->
  let s1 := after_listing category page s0 in
  scrape_articles (fuel0 + S fuel) category max_articles file_type s =
  Ok (Some articles)
     (mkState (world s1)
        (trace s0 ++ [Fetch (listing_url category page);
                      WriteFile (file_name category (today (world s1)) file_type)
                                (file_data file_type articles)])).
Proof.
  intros Hreach Hlt Hget Hlinks s1.
  assert (Hround : while_round category max_articles page articles s0 =
                   Ok (Exited articles) s1).
  { rewrite while_round_run. cbv zeta.
    destruct (Z.ltb_spec (len articles) max_articles) as [_|Hge]; [|lia].
    rewrite Hget. destruct html as [|c html]; [reflexivity|].
    rewrite Hlinks. reflexivity. }
  destruct (scrape_articles_run (fuel0 + S fuel) category max_articles file_type s)
    as (loop & s2 & Hwhile & _ & Hscrape).
  rewrite while_loop_add, Hreach in Hwhile.
  cbn [while_loop] in Hwhile. unfold bind, ret in Hwhile. rewrite Hround in Hwhile.
  cbv beta iota in Hwhile.
  injection Hwhile as <- <-. rewrite Hscrape.
  unfold s1, after_listing. cbn [trace world]. rewrite <- app_assoc. reflexivity.
Qed.

Lemma for_links_all_passed_over (max_articles : Z) (links : list (option string))
      (articles : list Dict) (s : State World) :
  Forall (fun link => not_an_article link = true) links ->
  for_links max_articles links articles s = Ok articles s.
Proof.
  induction 1 as [|link rest Hlink _ IH]; [reflexivity|].
  rewrite for_links_continue by exact Hlink. exact IH.
Qed.

(** X6: the loop need not end.  When every listing page has card links and
    all of them are photo or video links (or lack an href), each round
    collects nothing and moves on to the next page: for a target of at least
    1, after any number of rounds the loop is still running with the cursor
    one higher per round and no article, and scrape_articles has not
    returned. *)
Theorem only_non_article_links_never_ends
        (category file_type : string) (max_articles : Z) (s : State World) :
  1 <= max_articles ->
  (forall page w,
      listing_links category page w <> [] /\
      Forall (fun link => not_an_article link = true) (listing_links category page w)) ->
  forall fuel,
  exists s',
    while_loop fuel category max_articles 1 [] s =
    Ok (Running (1 + Z.of_nat fuel) []) s' /\
    scrape_articles fuel category max_articles file_type s = Ok None s'.
Proof.
  intros Hmax Hpages fuel.
  enough (Hloop : forall fuel page (s0 : State World), exists s',
             while_loop fuel category max_articles page [] s0 =
             Ok (Running (page + Z.of_nat fuel) []) s').
  { destruct (Hloop fuel 1 s) as (s' & Hrun). exists s'. split; [exact Hrun|].
    unfold scrape_articles, bind. rewrite Hrun. reflexivity. }
  clear fuel s. induction fuel as [|fuel IH]; intros page s0.
  - exists s0. cbn. now rewrite Z.add_0_r.
  - destruct (Hpages page (world s0)) as [Hne Hall].
    destruct (while_round_continues category max_articles page [] s0
                (Forall_nil _)) as (added & s2 & Hfor & Hround);
      [change (len (@nil Dict)) with 0; lia|exact Hne|].
    rewrite for_links_all_passed_over in Hfor by exact Hall.
    injection Hfor as Hadded <-. cbn [app] in Hadded. subst added.
    cbn [app] in Hround.
    destruct (IH (page + 1) (mkState (time_sleep WAIT_TIME (world (after_listing category page s0)))
                                     (trace (after_listing category page s0) ++ [Sleep WAIT_TIME])))
      as (s' & Hrun).
    exists s'. cbn [while_loop]. unfold bind. rewrite Hround.
    rewrite Hrun. f_equal. f_equal. lia.
Qed.

(** ** The delimited-text and spreadsheet writers *)

Lemma record_values (a : Dict) :
  dict_keys a = FIELDNAMES ->
  map (fun k => dict_get_default k "" a) FIELDNAMES = map snd a.
Proof.
  unfold dict_keys, FIELDNAMES. intros H.
  destruct a as [|[k1 v1] [|[k2 v2] [|[k3 v3] [|[k4 v4] [|[k5 v5] [|[k6 v6] [|]]]]]]];
    try discriminate.
  cbn [map fst] in H. injection H as -> -> -> -> -> ->.
  reflexivity.
Qed.

Lemma csv_row_record (a : Dict) :
  dict_keys a = FIELDNAMES -> csv_row FIELDNAMES a = Some (map snd a).
Proof.
  intros Ha. unfold csv_row. rewrite Ha.
  replace (forallb (fun k => existsb (String.eqb k) FIELDNAMES) FIELDNAMES)
    with true by reflexivity.
  now rewrite record_values.
Qed.

Lemma csv_rows_records (articles : list Dict) :
  all_records articles ->
  csv_rows FIELDNAMES articles = (article_rows "" articles, None).
Proof.
  induction 1 as [|a l Ha Hl IH]; [reflexivity|].
  cbn [csv_rows]. rewrite csv_row_record by exact Ha. rewrite IH. reflexivity.
Qed.

Lemma csv_row_foreign_key (a : Dict) (k : string) :
  In k (dict_keys a) -> ~ In k FIELDNAMES -> csv_row FIELDNAMES a = None.
Proof.
  intros Hin Hout. unfold csv_row.
  destruct (forallb (fun k => existsb (String.eqb k) FIELDNAMES) (dict_keys a)) eqn:Hall;
    [|reflexivity].
  rewrite forallb_forall in Hall. specialize (Hall k Hin).
  apply existsb_exists in Hall. destruct Hall as (k' & Hk' & Heq).
  apply String.eqb_eq in Heq. subst k'. contradiction.
Qed.

Lemma article_rows_length (separator : string) (articles : list Dict) :
  length (article_rows separator articles) = (2 * length articles)%nat.
Proof.
  unfold article_rows. induction articles as [|a l IH]; [reflexivity|].
  cbn [flat_map app length]. rewrite IH. lia.
Qed.

(** X7: for articles with the six fields save_to_csv raises nothing and
    writes one file: the row of the six field names, then for every article,
    in order, the row of its six values followed by a row of six empty
    cells; 1 + 2n rows in all (the header alone for no article). *)
Theorem save_to_csv_records
        (articles : list Dict) (filename : string) (s : State World) :
  all_records articles ->
  save_to_csv articles filename s =
  Ok tt (mkState (world s)
           (trace s ++ [WriteFile filename
                          (CsvFile (FIELDNAMES :: article_rows "" articles))])) /\
  length (FIELDNAMES :: article_rows "" articles) = (1 + 2 * length articles)%nat /\
  Forall (fun row => length row = 6%nat) (FIELDNAMES :: article_rows "" articles).
Proof.
  intros Hrec. split; [|split].
  - unfold save_to_csv. rewrite csv_rows_records by exact Hrec. reflexivity.
  - cbn [length]. now rewrite article_rows_length.
  - constructor; [reflexivity|]. unfold article_rows.
    induction Hrec as [|a l Ha Hl IH]; [constructor|].
    cbn [flat_map app]. constructor; [|constructor; [reflexivity|exact IH]].
    rewrite length_map. unfold dict_keys in Ha.
    rewrite <- (length_map fst a), Ha. reflexivity.
Qed.

(** X8: when an article has a key that is not one of the six field names,
    save_to_csv raises ValueError at that article; the file then holds the
    header and the rows of the articles before it, and nothing of that
    article or of those after it. *)
Theorem save_to_csv_foreign_key
        (good rest : list Dict) (bad : Dict) (key filename : string)
        (s : State World) :
  all_records good ->
  In key (dict_keys bad) ->
  ~ In key FIELDNAMES ->
  save_to_csv (good ++ bad :: rest) filename s =
  Raised ValueError
         (mkState (world s)
            (trace s ++ [WriteFile filename
                           (CsvFile (FIELDNAMES :: article_rows "" good))])).
Proof.
  intros Hgood Hin Hout. unfold save_to_csv.
  assert (Hrows : csv_rows FIELDNAMES (good ++ bad :: rest) =
                  (article_rows "" good, Some ValueError)).
  { induction Hgood as [|a l Ha Hl IH].
    - cbn [app csv_rows]. rewrite (csv_row_foreign_key bad key Hin Hout). reflexivity.
    - cbn [app csv_rows]. rewrite csv_row_record by exact Ha. rewrite IH. reflexivity. }
  rewrite Hrows. reflexivity.
Qed.


(** ** The fields of a page that has them *)

(** X10: when the page is fetched, extract_article makes that one request
    and no pause, and every element that is found gives the stripped text:
    the first h1 for Title, the author element, the dateTime span; Full Text
    is the stripped paragraphs of the story body joined by a blank line, so a
    story body without any paragraph gives the empty string, not "N/A", and a
    single paragraph gives just its text. *)
Theorem extract_article_present_fields (url html : string) (s : State World) :
  fst (http_get url (world s)) = Some html ->
  truthy_str html = true ->
  exists article,
    extract_article url s =
    Ok (Some article)
       (mkState (snd (http_get url (world s))) (trace s ++ [Fetch url])) /\
    (forall t, find_h1 (BeautifulSoup html) = Some t ->
               dict_get "Title" article = Some (strip t)) /\
    (forall t, select_author (BeautifulSoup html) = Some t ->
               dict_get "Author" article = Some (strip t)) /\
    (forall t, find_dateTime (BeautifulSoup html) = Some t ->
               dict_get "Published Time" article = Some (strip t)) /\
    (forall ps, find_storyDetails (BeautifulSoup html) = Some ps ->
                dict_get "Full Text" article = Some (join (nl ++ nl) (map strip ps))) /\
    (find_storyDetails (BeautifulSoup html) = Some [] ->
     dict_get "Full Text" article = Some "") /\
    (forall p, find_storyDetails (BeautifulSoup html) = Some [p] ->
               dict_get "Full Text" article = Some (strip p)) /\
    (forall p q, find_storyDetails (BeautifulSoup html) = Some [p; q] ->
                 dict_get "Full Text" article = Some (strip p ++ nl ++ nl ++ strip q)).
Proof.
  intros Hget Hhtml. rewrite extract_article_run, Hget.
  destruct html as [|c html]; [discriminate|].
  eexists. split; [reflexivity|].
  repeat split; intros; unfold article_of;
    match goal with H : _ = Some _ |- _ => rewrite H end; reflexivity.
Qed.

(** ** The listing URLs *)

Lemma str_int_injective (p q : Z) : str_int p = str_int q -> p = q.
Proof.
  unfold str_int. intros H. apply to_int_inj.
  assert (Hnonnil : forall z, Z.to_int z <> Decimal.Pos Decimal.Nil /\
                              Z.to_int z <> Decimal.Neg Decimal.Nil).
  { intros [|x|x]; cbn; split; try discriminate;
      intros E; injection E as E; exact (Unsigned.to_uint_nonnil x E). }
  destruct (Hnonnil p) as [Hp1 Hp2]. destruct (Hnonnil q) as [Hq1 Hq2].
  pose proof (NilZero.isi (Z.to_int p) Hp1 Hp2) as Ep.
  pose proof (NilZero.isi (Z.to_int q) Hq1 Hq2) as Eq.
  rewrite H in Ep. rewrite Ep in Eq. now injection Eq.
Qed.

Lemma listing_url_cursor (category : string) (p q : Z) :
  listing_url category p = listing_url category q -> p = q.
Proof.
  unfold listing_url. intros H.
  destruct (Z.eqb_spec p 1) as [Hp|Hp]; destruct (Z.eqb_spec q 1) as [Hq|Hq].
  - congruence.
  - do 3 apply append_cancel_l in H. discriminate.
  - do 3 apply append_cancel_l in H. discriminate.
  - do 4 apply append_cancel_l in H. apply str_int_injective, H.
Qed.

(** X11: for one category, different page cursors give different listing
    URLs: page 1 is the bare category path, every other page is the
    category path followed by "page-" and the decimal cursor, and no two of
    these coincide. *)
Theorem listing_url_injective (category : string) (p q : Z) :
  p <> q -> listing_url category p <> listing_url category q.
Proof. intros Hpq H. apply Hpq. exact (listing_url_cursor category p q H). Qed.

(** ** Rounds only add *)

(** X12: what has been collected and done after some rounds stays as it is
    in every later round: the articles after more rounds are the earlier
    ones, in the same order, followed by the new ones, and the events are
    the earlier events followed by the new ones. *)
Theorem later_rounds_only_extend
        (category : string) (max_articles : Z) (n m : nat)
        (loop1 : Loop) (s s1 : State World) :
  while_loop n category max_articles 1 [] s = Ok loop1 s1 ->
  exists loop2 s2 added events,
    while_loop (n + m) category max_articles 1 [] s = Ok loop2 s2 /\
    loop_articles loop2 = (loop_articles loop1 ++ added)%list /\
    trace s2 = (trace s1 ++ events)%list.
Proof.
  intros Hn. rewrite while_loop_add, Hn.
  destruct loop1 as [page articles|articles].
  - destruct (while_loop_invariant category max_articles n 1 [] s (Forall_nil _))
      as (added0 & loop0 & s0 & Hrun0 & Harts0 & Hadded0 & _).
    rewrite Hn in Hrun0. injection Hrun0 as <- <-.
    cbn [loop_articles app] in Harts0. subst added0.
    destruct (while_loop_invariant category max_articles m page articles s1 Hadded0)
      as (added & loop2 & s2 & Hrun & Harts & _).
    destruct (while_loop_events category max_articles m page articles s1 Hadded0)
      as (rounds & last & loop2' & s2' & Hrun' & Htr & _).
    rewrite Hrun in Hrun'. injection Hrun' as <- <-.
    exists loop2, s2, added, (rounds_events category page rounds ++ last)%list.
    split; [exact Hrun|]. split; [exact Harts|exact Htr].
  - exists (Exited articles), s1, [], []. rewrite !app_nil_r.
    repeat split.
Qed.

(** ** File types *)

(** X13: a file type other than csv, txt and xlsx is written as
    delimited text all the same, into a file whose name still ends in the
    given type: when scrape_articles returns, its last event is the write of
    the header and the article rows under that name. *)
Theorem unknown_file_type_written_as_csv
        (fuel : nat) (category file_type : string) (max_articles : Z)
        (articles : list Dict) (s s' : State World) :
  ~ In file_type ["csv"; "txt"; "xlsx"] ->
  scrape_articles fuel category max_articles file_type s = Ok (Some articles) s' ->
  exists earlier,
    trace s' =
    (earlier ++
     [WriteFile ("hindustan_times_" ++ category ++ "_" ++ today (world s') ++ "." ++ file_type)
                (CsvFile (FIELDNAMES :: article_rows "" articles))])%list.
Proof.
  intros Hother Hret.
  destruct (scrape_articles_run fuel category max_articles file_type s)
    as (loop & s1 & _ & Hrec & Hscrape).
  rewrite Hscrape in Hret. destruct loop as [page a|a]; [discriminate|].
  injection Hret as <- <-. cbn [loop_articles] in Hrec.
  exists (trace s1). cbn [trace world]. unfold file_name, file_data.
  destruct (String.eqb_spec file_type "txt") as [->|_].
  { elim Hother. cbn. auto. }
  destruct (String.eqb_spec file_type "xlsx") as [->|_].
  { elim Hother. cbn. auto. }
  rewrite csv_rows_records by exact Hrec. reflexivity.
Qed.

(** ** The run driver *)

Lemma main_run (fuel : nat) (s : State World) :
  main fuel s =
  scrape_articles fuel
    (select_category (strip (fst (input (world s)))))
    (parse_count (strip (fst (input (snd (input (world s)))))))
    (select_file_type (strip (fst (input (snd (input (snd (input (world s)))))))))
    (mkState (snd (input (snd (input (snd (input (world s))))))) (trace s)).
Proof.
  unfold main, bind, read_input. cbn [world trace].
  destruct (input (world s)) as [line1 w1]. cbn [world trace fst snd].
  destruct (input w1) as [line2 w2]. cbn [world trace fst snd].
  destruct (input w2) as [line3 w3]. reflexivity.
Qed.

Lemma select_category_known (choice : string) :
  In (select_category choice)
     ["india-news"; "world-news"; "business"; "cities"; "entertainment"; "sports"] /\
  (~ In choice ["1"; "2"; "3"; "4"; "5"; "6"] -> select_category choice = "business").
Proof.
  unfold select_category, dict_get_default, categories, dict_get.
  repeat match goal with
         | |- context [String.eqb ?a choice] =>
             destruct (String.eqb_spec a choice) as [<-|?]
         end;
    (split; [cbn; auto 10|intros Hn; try reflexivity; elim Hn; cbn; auto 10]).
Qed.

Lemma select_file_type_known (file_choice : string) :
  In (select_file_type file_choice) ["csv"; "txt"; "xlsx"] /\
  (file_choice = "2" -> select_file_type file_choice = "txt") /\
  (file_choice = "3" -> select_file_type file_choice = "xlsx") /\
  (file_choice <> "2" -> file_choice <> "3" -> select_file_type file_choice = "csv").
Proof.
  unfold select_file_type.
  destruct (String.eqb_spec file_choice "2") as [->|H2];
    [|destruct (String.eqb_spec file_choice "3") as [->|H3]];
    repeat split; cbn; auto; try congruence; discriminate.
Qed.

(** X14: whatever is typed, the run driver reads three lines and then calls
    scrape_articles, having made no request, with one of the six category
    names (business unless the stripped first line is one of 1 to 6), a
    count that is 10 when the stripped second line is empty or is not an
    integer and the integer otherwise, and one of the file types csv, txt
    and xlsx (txt for 2, xlsx for 3, csv for anything else). *)
Theorem main_parameters (fuel : nat) (s : State World) :
  let line1 := strip (fst (input (world s))) in
  let w1 := snd (input (world s)) in
  let line2 := strip (fst (input w1)) in
  let w2 := snd (input w1) in
  let line3 := strip (fst (input w2)) in
  let w3 := snd (input w2) in
  exists category max_articles file_type,
    main fuel s =
    scrape_articles fuel category max_articles file_type (mkState w3 (trace s)) /\
    In category
       ["india-news"; "world-news"; "business"; "cities"; "entertainment"; "sports"] /\
    (~ In line1 ["1"; "2"; "3"; "4"; "5"; "6"] -> category = "business") /\
    (line1 = "4" -> category = "cities") /\
    (line2 = "" \/ python_int line2 = None -> max_articles = 10) /\
    (forall n, line2 <> "" -> python_int line2 = Some n -> max_articles = n) /\
    In file_type ["csv"; "txt"; "xlsx"] /\
    (line3 = "2" -> file_type = "txt") /\
    (line3 = "3" -> file_type = "xlsx") /\
    (line3 <> "2" -> line3 <> "3" -> file_type = "csv").
Proof.
  intros line1 w1 line2 w2 line3 w3.
  exists (select_category line1), (parse_count line2), (select_file_type line3).
  split; [apply main_run|].
  destruct (select_category_known line1) as [Hc1 Hc2].
  destruct (select_file_type_known line3) as (Hf1 & Hf2 & Hf3 & Hf4).
  split; [exact Hc1|]. split; [exact Hc2|].
  split; [intros ->; reflexivity|].
  split.
  { unfold parse_count. intros [->|Hnone]; [reflexivity|].
    destruct line2; [reflexivity|]. now rewrite Hnone. }
  split.
  { unfold parse_count. intros n Hne Hn.
    destruct line2; [congruence|]. now rewrite Hn. }
  repeat split; assumption.
Qed.

(** X15: the file the run driver writes always has the format of its
    extension: when main returns, its last event is the write of a csv
    file with the header and article rows, or of a txt file with the text
    layout, or of an xlsx file with the sheet rows, named after one of the
    six categories; the branch for unknown file types is never taken. *)
Theorem main_file_matches_extension
        (fuel : nat) (articles : list Dict) (s s' : State World) :
  main fuel s = Ok (Some articles) s' ->
  exists category earlier data file_type,
    In category
       ["india-news"; "world-news"; "business"; "cities"; "entertainment"; "sports"] /\
    trace s' =
    (earlier ++ [WriteFile (file_name category (today (world s')) file_type) data])%list /\
    ((file_type = "csv" /\ data = CsvFile (FIELDNAMES :: article_rows "" articles)) \/
     (file_type = "txt" /\ data = TextFile (txt_articles 1 articles)) \/
     (file_type = "xlsx" /\
      data = XlsxFile "Scraped Articles" (FIELDNAMES :: excel_rows FIELDNAMES articles))).
Proof.
  rewrite main_run. intros Hret.
  set (category := select_category _) in Hret.
  set (max_articles := parse_count _) in Hret.
  set (file_type := select_file_type _) in Hret.
  set (s0 := mkState _ _) in Hret.
  destruct (scrape_articles_run fuel category max_articles file_type s0)
    as (loop & s1 & _ & Hrec & Hscrape).
  rewrite Hscrape in Hret. destruct loop as [page a|a]; [discriminate|].
  injection Hret as <- <-. cbn [loop_articles] in Hrec.
  exists category, (trace s1), (file_data file_type a), file_type.
  split; [apply select_category_known|]. split; [reflexivity|].
  subst file_type. unfold select_file_type, file_data.
  destruct (String.eqb _ "2"); [right; left; split; reflexivity|].
  destruct (String.eqb _ "3"); [right; right; split; reflexivity|].
  left. split; [reflexivity|]. cbn. now rewrite csv_rows_records.
Qed.

(** X16: the count is not checked to be positive: when the second line is
    an integer that is zero or negative, the run driver makes no request at
    all and writes the file for no articles. *)
Theorem main_nonpositive_count (fuel : nat) (n : Z) (s : State World) :
  let line1 := strip (fst (input (world s))) in
  let w1 := snd (input (world s)) in
  let line2 := strip (fst (input w1)) in
  let w2 := snd (input w1) in
  let line3 := strip (fst (input w2)) in
  let w3 := snd (input w2) in
  line2 <> "" ->
  python_int line2 = Some n ->
  n <= 0 ->
  main (S fuel) s =
  Ok (Some [])
     (mkState w3
        (trace s ++
         [WriteFile (file_name (select_category line1) (today w3) (select_file_type line3))
                    (file_data (select_file_type line3) [])])).
Proof.
  intros line1 w1 line2 w2 line3 w3 Hne Hint Hn.
  rewrite main_run. fold line1 w1 line2 w2 line3 w3.
  rewrite scrape_articles_no_round; [reflexivity|].
  unfold parse_count. destruct line2; [congruence|]. now rewrite Hint.
Qed.

End Scraper.

Arguments Ok {World A} a s.
Arguments Raised {World A} e s.

(** ** Runs on the small site *)

Abbreviation site_extract_article :=
  (extract_article Fixture.World Fixture.http_get Fixture.BeautifulSoup Fixture.strip).
Abbreviation site_for_links :=
  (for_links Fixture.World Fixture.http_get Fixture.BeautifulSoup Fixture.strip
             Fixture.urljoin Fixture.time_sleep).
Abbreviation site_while_loop :=
  (while_loop Fixture.World Fixture.http_get Fixture.BeautifulSoup Fixture.strip
              Fixture.urljoin Fixture.time_sleep).
Abbreviation site_while_round :=
  (while_round Fixture.World Fixture.http_get Fixture.BeautifulSoup Fixture.strip
               Fixture.urljoin Fixture.time_sleep).
Abbreviation site_scrape_articles :=
  (scrape_articles Fixture.World Fixture.http_get Fixture.BeautifulSoup Fixture.strip
                   Fixture.urljoin Fixture.time_sleep Fixture.today).

(** With a target of 10 the sports category, whose second page cannot be
    had, returns within two rounds with at most 10 articles. *)
Lemma scrape_articles_at_most_target_witness :
  1 <= 10 /\
  exists articles s',
    site_scrape_articles (Z.to_nat 2) "sports" 10 "txt" Fixture.start = Ok (Some articles) s' /\
    0 <= len articles <= 10.
Proof.
  split; [lia|].
  destruct (scrape_articles_at_most_target
              Fixture.World Fixture.http_get Fixture.BeautifulSoup Fixture.strip
              Fixture.urljoin Fixture.time_sleep Fixture.today
              "sports" "txt" 10 Fixture.start ltac:(lia)) as (_ & _ & _ & Hexit).
  apply (Hexit 2); [lia|intros w; reflexivity].
Defined.

(** The second sports page cannot be had: what page 1 gave is saved. *)
Lemma listing_fetch_failure_ends_loop_witness :
  exists articles s1 s2,
    site_while_loop 1 "sports" 10 1 [] Fixture.start = Ok (Running 2 articles) s1 /\
    urls articles = [Some (Fixture.site "/sports/s1"); Some (Fixture.site "/sports/s2")] /\
    truthy_ostr (fst (Fixture.http_get (listing_url "sports" 2) (world s1))) = false /\
    site_scrape_articles (1 + 1) "sports" 10 "txt" Fixture.start = Ok (Some articles) s2.
Proof.
  eexists. eexists. eexists.
  split; [reflexivity|]. split; [reflexivity|]. split; [reflexivity|].
  eapply proj2.
  eapply (listing_fetch_failure_ends_loop
            Fixture.World Fixture.http_get Fixture.BeautifulSoup Fixture.strip
            Fixture.urljoin Fixture.time_sleep Fixture.today
            "sports" "txt" 10 2 1 0 _ Fixture.start);
    [reflexivity|reflexivity|reflexivity].
Defined.

(** A page with exactly one breadcrumb anchor: Categories is empty. *)
Lemma categories_single_anchor_is_empty_witness :
  select_breadcrumb (Fixture.BeautifulSoup (Fixture.site "/sports/s1")) = ["Home"] /\
  exists article s',
    site_extract_article (Fixture.site "/sports/s1") Fixture.start = Ok (Some article) s' /\
    dict_get "Categories" article = Some "".
Proof.
  split; [reflexivity|].
  destruct (categories_single_anchor_is_empty
              Fixture.World Fixture.http_get Fixture.BeautifulSoup Fixture.strip
              (Fixture.site "/sports/s1") (Fixture.site "/sports/s1") Fixture.start
              eq_refl eq_refl) as (article & s' & Hrun & Hone & _).
  exists article, s'. split; [exact Hrun|].
  exact (proj1 (Hone "Home" eq_refl)).
Defined.

(** The photo link on the cities page, second of its links. *)
Lemma non_article_link_excluded_witness :
  contains "/photos/" "/photos/gallery-1" = true /\
  site_for_links 10 [Some "/photos/gallery-1"] [] Fixture.start = Ok [] Fixture.start /\
  site_for_links 10 ([None] ++ Some "/photos/gallery-1" :: [Some "/cities/c1"]) [] Fixture.start =
  site_for_links 10 ([None] ++ [Some "/cities/c1"]) [] Fixture.start.
Proof.
  split; [reflexivity|].
  apply (non_article_link_excluded
           Fixture.World Fixture.http_get Fixture.BeautifulSoup Fixture.strip
           Fixture.urljoin Fixture.time_sleep
           10 (Some "/photos/gallery-1") [None] [Some "/cities/c1"] [] Fixture.start).
  right. right. exists "/photos/gallery-1". split; [reflexivity|left; reflexivity].
Defined.

(** The article of the cities page that cannot be had is passed over, and
    the loop goes on to the article after it. *)
Lemma failed_extraction_skips_candidate_witness :
  truthy_ostr (fst (Fixture.http_get (Fixture.site "/cities/gone") (world Fixture.start))) = false /\
  site_for_links 10 [Some "/cities/gone"; Some "/cities/c2"] [] Fixture.start =
  site_for_links 10 [Some "/cities/c2"] []
    (after_candidate Fixture.World Fixture.http_get Fixture.time_sleep
                     (Fixture.site "/cities/gone") Fixture.start) /\
  exists articles' s',
    site_while_round "cities" 10 1 [] Fixture.start = Ok (Running (1 + 1) articles') s'.
Proof.
  split; [reflexivity|].
  destruct (failed_extraction_skips_candidate
              Fixture.World Fixture.http_get Fixture.BeautifulSoup Fixture.strip
              Fixture.urljoin Fixture.time_sleep
              "cities" 10 1 "/cities/gone" [Some "/cities/c2"] [] Fixture.start Fixture.start)
    as (_ & Hskip & _ & Hround).
  - constructor.
  - reflexivity.
  - reflexivity.
  - intros [].
  - reflexivity.
  - discriminate.
  - split; [exact Hskip|exact Hround].
Defined.

(** The article that cannot be had on the first request only: requested
    twice, and appended the second time. *)
Lemma failed_extraction_not_remembered_witness :
  truthy_ostr (fst (Fixture.http_get (Fixture.site "/cities/flaky") (world Fixture.start))) = false /\
  exists articles s',
    site_for_links 10 [Some "/cities/flaky"; Some "/cities/flaky"] [] Fixture.start =
    Ok articles s' /\
    urls articles = [Some (Fixture.site "/cities/flaky")] /\
    trace s' = [Fetch (Fixture.site "/cities/flaky"); Sleep 2;
                Fetch (Fixture.site "/cities/flaky"); Sleep 2].
Proof.
  split; [reflexivity|].
  destruct (failed_extraction_not_remembered
              Fixture.World Fixture.http_get Fixture.BeautifulSoup Fixture.strip
              Fixture.urljoin Fixture.time_sleep
              10 "/cities/flaky" [] [] Fixture.start)
    as (_ & _ & Hagain & Htrace).
  - constructor.
  - reflexivity.
  - reflexivity.
  - intros [].
  - reflexivity.
  - eexists. eexists. split; [exact Hagain|]. split; [reflexivity|exact Htrace].
Defined.

(** The business category: three pages of five articles, a target of 10. *)
Lemma three_pages_target_ten_witness :
  map (length (A:=option string))
      [select_cartHolder (Fixture.BeautifulSoup (listing_url "business" 1));
       select_cartHolder (Fixture.BeautifulSoup (listing_url "business" 2));
       select_cartHolder (Fixture.BeautifulSoup (listing_url "business" 3))]
  = [5; 5; 5]%nat /\
  exists articles s',
    site_scrape_articles 3 "business" 10 "csv" Fixture.start = Ok (Some articles) s' /\
    length articles = 10%nat /\
    NoDup (urls articles) /\
    In (Fetch (Fixture.site "/business/")) (trace s') /\
    In (Fetch (Fixture.site "/business/page-2")) (trace s') /\
    ~ In (Fetch (Fixture.site "/business/page-3")) (trace s').
Proof.
  split; [reflexivity|].
  destruct (three_pages_target_ten
              Fixture.World Fixture.http_get Fixture.BeautifulSoup Fixture.strip
              Fixture.urljoin Fixture.time_sleep Fixture.today
              "business" "csv" (Fixture.site "/business/")
              (Fixture.site "/business/page-2")
              Fixture.business_1 Fixture.business_2 0 Fixture.start)
    as (articles & s' & events & Hrun & Hlen & _ & Hnd & Htrace & Hevents & Hno3 & _).
  - intros w; reflexivity.
  - intros w; reflexivity.
  - reflexivity.
  - reflexivity.
  - reflexivity.
  - reflexivity.
  - reflexivity.
  - reflexivity.
  - repeat (constructor; [split; [reflexivity|intros w; reflexivity]|]).
    constructor.
  - repeat (constructor; [cbn; intuition discriminate|]). constructor.
  - exists articles, s'. split; [exact Hrun|]. split; [exact Hlen|].
    split; [exact Hnd|].
    cbn [trace Fixture.start app] in Htrace. rewrite Htrace.
    split; [rewrite Hevents; left; reflexivity|].
    split; [rewrite Hevents; apply in_or_app; right; apply in_or_app; right;
            right; left; reflexivity|].
    apply Hno3. intros h Hin.
    cbn in Hin. intuition (subst; discriminate).
Defined.

(** The text written for two small dicts. *)
Example save_to_txt_two_articles :
  save_to_txt Fixture.World [[("Title", "A"); ("URL", "u1")]; [("Title", "B")]]
              "out.txt" Fixture.start =
  Ok tt (mkState 0%nat
           [WriteFile "out.txt"
              (TextFile
                 (write_lines
                    ["ARTICLE #1"; "========================================";
                     "Title:"; "A"; ""; "URL:"; "u1"; "";
                     "--------------------------------------------------------------------------------";
                     "";
                     "ARTICLE #2"; "========================================";
                     "Title:"; "B"; "";
                     "--------------------------------------------------------------------------------";
                     ""]))]).
Proof. reflexivity. Qed.

(** The record of a page on which no selector finds anything. *)
Example extract_article_all_missing :
  site_extract_article (Fixture.site "/sports/s2") Fixture.start =
  Ok (Some [("Title", "N/A"); ("Author", "N/A"); ("Published Time", "N/A");
            ("URL", Fixture.site "/sports/s2"); ("Categories", "N/A");
            ("Full Text", "N/A")])
     (mkState 1%nat [Fetch (Fixture.site "/sports/s2")]).
Proof. reflexivity. Qed.

(** The duplicate link of the cities page is requested once. *)
Example cities_duplicate_requested_once :
  exists articles s',
    site_scrape_articles 2 "cities" 10 "csv" Fixture.start = Ok (Some articles) s' /\
    urls articles = [Some (Fixture.site "/cities/c1"); Some (Fixture.site "/cities/c2")] /\
    count_occ (list_eq_dec Ascii.ascii_dec)
              (flat_map (fun e => match e with
                                  | Fetch u => [list_ascii_of_string u]
                                  | _ => []
                                  end) (trace s'))
              (list_ascii_of_string (Fixture.site "/cities/c1")) = 1%nat.
Proof. eexists. eexists. split; [reflexivity|]. split; reflexivity. Qed.

(** ** More runs on the small sites *)

Abbreviation console_main :=
  (main Console.World Console.http_get Fixture.BeautifulSoup Fixture.strip
        Fixture.urljoin Console.time_sleep Console.today Console.input
        Console.python_int).

(** The links of the cities page: three of the eight are asked for. *)
Lemma for_links_requests_in_page_order_witness :
  all_records [] /\
  exists requested added s',
    site_for_links 10
      (select_cartHolder (Fixture.BeautifulSoup (Fixture.site "/cities/")))
      [] Fixture.start = Ok added s' /\
    trace s' = visits Fixture.urljoin requested /\
    (length added <= length requested <= 8)%nat.
Proof.
  split; [constructor|].
  destruct (for_links_requests_in_page_order
              Fixture.World Fixture.http_get Fixture.BeautifulSoup Fixture.strip
              Fixture.urljoin Fixture.time_sleep 10
              (select_cartHolder (Fixture.BeautifulSoup (Fixture.site "/cities/")))
              [] Fixture.start (Forall_nil _))
    as (requested & collected & added & s' & Hrun & Htr & _ & _ & _ & Hlen & _).
  exists requested, added, s'. split; [exact Hrun|]. split; [exact Htr|exact Hlen].
Defined.

(** The sports run: one full round, the request for page 2, the write. *)
Lemma scrape_articles_events_witness :
  exists articles s' rounds last,
    site_scrape_articles 2 "sports" 10 "txt" Fixture.start = Ok (Some articles) s' /\
    trace s' =
    (rounds_events Fixture.urljoin "sports" 1 rounds ++ last ++
     [WriteFile (file_name "sports" "2026-11-03" "txt") (file_data "txt" articles)])%list /\
    (length rounds < 2)%nat.
Proof.
  eexists. eexists.
  destruct (scrape_articles_events
              Fixture.World Fixture.http_get Fixture.BeautifulSoup Fixture.strip
              Fixture.urljoin Fixture.time_sleep Fixture.today
              2 "sports" "txt" 10 _ Fixture.start _ eq_refl)
    as (rounds & last & Htr & _ & Hlen).
  exists rounds, last. split; [reflexivity|]. split; [exact Htr|exact Hlen].
Defined.

(** A target of zero on the business category. *)
Lemma scrape_articles_nonpositive_target_witness :
  0 <= 0 /\
  site_scrape_articles 1 "business" 0 "csv" Fixture.start =
  Ok (Some [])
     (mkState 0%nat
        [WriteFile "hindustan_times_business_2026-11-03.csv" (CsvFile [FIELDNAMES])]).
Proof.
  split; [lia|].
  exact (proj1 (scrape_articles_nonpositive_target
                  Fixture.World Fixture.http_get Fixture.BeautifulSoup Fixture.strip
                  Fixture.urljoin Fixture.time_sleep Fixture.today
                  0 "business" "csv" 0 Fixture.start ltac:(lia))).
Defined.

(** The second cities page has no card link: the two articles of page 1
    are saved. *)
Lemma empty_listing_page_ends_loop_witness :
  exists articles s1 s2,
    site_while_loop 1 "cities" 10 1 [] Fixture.start = Ok (Running 2 articles) s1 /\
    select_cartHolder (Fixture.BeautifulSoup (listing_url "cities" 2)) = [] /\
    site_scrape_articles (1 + 1) "cities" 10 "csv" Fixture.start = Ok (Some articles) s2 /\
    length articles = 2%nat.
Proof.
  eexists. eexists. eexists.
  split; [reflexivity|]. split; [reflexivity|]. split; [|reflexivity].
  eapply (empty_listing_page_ends_loop
            Fixture.World Fixture.http_get Fixture.BeautifulSoup Fixture.strip
            Fixture.urljoin Fixture.time_sleep Fixture.today
            "cities" "csv" (listing_url "cities" 2) 10 2 1 0 _ Fixture.start);
    reflexivity.
Defined.

(** On the site of galleries the loop is still running after 50 rounds. *)
Lemma only_non_article_links_never_ends_witness :
  1 <= 5 /\
  exists s',
    while_loop Gallery.World Gallery.http_get Gallery.BeautifulSoup Fixture.strip
               Fixture.urljoin Gallery.time_sleep 50 "sports" 5 1 [] Gallery.start =
    Ok (Running (1 + Z.of_nat 50) []) s' /\
    scrape_articles Gallery.World Gallery.http_get Gallery.BeautifulSoup Fixture.strip
                    Fixture.urljoin Gallery.time_sleep Gallery.today
                    50 "sports" 5 "csv" Gallery.start = Ok None s'.
Proof.
  split; [lia|].
  apply (only_non_article_links_never_ends
           Gallery.World Gallery.http_get Gallery.BeautifulSoup Fixture.strip
           Fixture.urljoin Gallery.time_sleep Gallery.today
           "sports" "csv" 5 Gallery.start); [lia|].
  intros page w. unfold listing_links, Gallery.http_get, listing_url. cbn [fst].
  destruct (page =? 1); (split; [discriminate|repeat constructor]).
Defined.

(** Two articles with the six fields. *)
Lemma save_to_csv_records_witness :
  exists articles s',
    site_scrape_articles 2 "sports" 10 "csv" Fixture.start = Ok (Some articles) s' /\
    all_records articles /\
    save_to_csv Fixture.World articles "out.csv" Fixture.start =
    Ok tt (mkState 0%nat
             [WriteFile "out.csv" (CsvFile (FIELDNAMES :: article_rows "" articles))]) /\
    length (FIELDNAMES :: article_rows "" articles) = 5%nat.
Proof.
  eexists. eexists. split; [reflexivity|].
  assert (Hrec : all_records
            [article_of Fixture.strip (Fixture.BeautifulSoup (Fixture.site "/sports/s1"))
                        (Fixture.site "/sports/s1");
             article_of Fixture.strip (Fixture.BeautifulSoup (Fixture.site "/sports/s2"))
                        (Fixture.site "/sports/s2")])
    by (repeat constructor).
  split; [exact Hrec|].
  destruct (save_to_csv_records Fixture.World _ "out.csv" Fixture.start Hrec)
    as (Hsave & Hlen & _).
  split; [exact Hsave|exact Hlen].
Defined.

(** A dict with a key of its own between two articles. *)
Lemma save_to_csv_foreign_key_witness :
  In "Summary" (dict_keys [("Title", "T"); ("Summary", "S")]) /\
  save_to_csv Fixture.World
    ([article_of Fixture.strip (Fixture.BeautifulSoup (Fixture.site "/sports/s2"))
                 (Fixture.site "/sports/s2")] ++
     [("Title", "T"); ("Summary", "S")] :: [[("Title", "U")]])
    "out.csv" Fixture.start =
  Raised ValueError
    (mkState 0%nat
       [WriteFile "out.csv"
          (CsvFile [FIELDNAMES;
                    ["N/A"; "N/A"; "N/A"; Fixture.site "/sports/s2"; "N/A"; "N/A"];
                    [""; ""; ""; ""; ""; ""]])]).
Proof.
  split; [right; left; reflexivity|].
  apply (save_to_csv_foreign_key Fixture.World
           [article_of Fixture.strip (Fixture.BeautifulSoup (Fixture.site "/sports/s2"))
                       (Fixture.site "/sports/s2")]
           [[("Title", "U")]] [("Title", "T"); ("Summary", "S")] "Summary"
           "out.csv" Fixture.start).
  - repeat constructor.
  - right; left; reflexivity.
  - cbn. intuition discriminate.
Defined.

(** The cities article with every element present. *)
Lemma extract_article_present_fields_witness :
  exists article s',
    site_extract_article (Fixture.site "/cities/c1") Fixture.start = Ok (Some article) s' /\
    dict_get "Title" article = Some "Rain in the city" /\
    dict_get "Full Text" article =
      Some (Fixture.strip "First paragraph." ++ nl ++ nl ++
            Fixture.strip " Second paragraph. ").
Proof.
  destruct (extract_article_present_fields
              Fixture.World Fixture.http_get Fixture.BeautifulSoup Fixture.strip
              (Fixture.site "/cities/c1") (Fixture.site "/cities/c1") Fixture.start
              eq_refl eq_refl)
    as (article & Hrun & Htitle & _ & _ & _ & _ & _ & Htwo).
  exists article. eexists. split; [exact Hrun|].
  split; [exact (Htitle _ eq_refl)|exact (Htwo _ _ eq_refl)].
Defined.

(** Pages 1 and 2 of the business category. *)
Lemma listing_url_injective_witness :
  1 <> 2 /\ listing_url "business" 1 <> listing_url "business" 2.
Proof.
  split; [lia|]. apply listing_url_injective. lia.
Defined.

(** The business category after one round and after three. *)
Lemma later_rounds_only_extend_witness :
  exists loop1 s1 loop2 s2 added events,
    site_while_loop 1 "business" 10 1 [] Fixture.start = Ok loop1 s1 /\
    site_while_loop (1 + 2) "business" 10 1 [] Fixture.start = Ok loop2 s2 /\
    loop_articles loop2 = (loop_articles loop1 ++ added)%list /\
    trace s2 = (trace s1 ++ events)%list.
Proof.
  eexists. eexists.
  destruct (later_rounds_only_extend
              Fixture.World Fixture.http_get Fixture.BeautifulSoup Fixture.strip
              Fixture.urljoin Fixture.time_sleep
              "business" 10 1 2 _ Fixture.start _ eq_refl)
    as (loop2 & s2 & added & events & Hrun & Harts & Htr).
  exists loop2, s2, added, events.
  split; [reflexivity|]. split; [exact Hrun|]. split; [exact Harts|exact Htr].
Defined.

(** The sports category saved with the file type json. *)
Lemma unknown_file_type_written_as_csv_witness :
  exists articles s' earlier,
    site_scrape_articles 2 "sports" 10 "json" Fixture.start = Ok (Some articles) s' /\
    trace s' =
    (earlier ++
     [WriteFile "hindustan_times_sports_2026-11-03.json"
                (CsvFile (FIELDNAMES :: article_rows "" articles))])%list.
Proof.
  eexists. eexists.
  destruct (unknown_file_type_written_as_csv
              Fixture.World Fixture.http_get Fixture.BeautifulSoup Fixture.strip
              Fixture.urljoin Fixture.time_sleep Fixture.today
              2 "sports" "json" 10 _ Fixture.start _
              ltac:(cbn; intuition discriminate) eq_refl)
    as (earlier & Htr).
  exists earlier. split; [reflexivity|exact Htr].
Defined.

(** Typing 6, 2 and 2: two sports articles in a text file. *)
Lemma main_file_matches_extension_witness :
  exists articles s',
    console_main 2 (Console.start ["6"; " 2 "; "2"]) = Ok (Some articles) s' /\
    length articles = 2%nat /\
    last (trace s') (Sleep 0) =
      WriteFile "hindustan_times_sports_2026-11-03.txt"
                (TextFile (txt_articles 1 articles)) /\
    exists category earlier data file_type,
      In category
         ["india-news"; "world-news"; "business"; "cities"; "entertainment"; "sports"] /\
      trace s' =
      (earlier ++ [WriteFile (file_name category (Console.today (world s')) file_type)
                             data])%list /\
      ((file_type = "csv" /\ data = CsvFile (FIELDNAMES :: article_rows "" articles)) \/
       (file_type = "txt" /\ data = TextFile (txt_articles 1 articles)) \/
       (file_type = "xlsx" /\
        data = XlsxFile "Scraped Articles" (FIELDNAMES :: excel_rows FIELDNAMES articles))).
Proof.
  eexists. eexists. split; [vm_compute; reflexivity|]. split; [reflexivity|].
  split; [reflexivity|].
  apply (main_file_matches_extension
           Console.World Console.http_get Fixture.BeautifulSoup Fixture.strip
           Fixture.urljoin Console.time_sleep Console.today Console.input
           Console.python_int 2 _ (Console.start ["6"; " 2 "; "2"]) _ eq_refl).
Defined.

(** Typing 4, -3 and 3: no request, an empty sheet for the cities. *)
Lemma main_nonpositive_count_witness :
  Console.python_int "-3" = Some (-3) /\
  console_main 1 (Console.start ["4"; "-3"; "3"]) =
  Ok (Some [])
     (mkState ([], 0%nat)
        [WriteFile "hindustan_times_cities_2026-11-03.xlsx"
                   (XlsxFile "Scraped Articles" [FIELDNAMES])]).
Proof.
  split; [reflexivity|].
  apply (main_nonpositive_count
           Console.World Console.http_get Fixture.BeautifulSoup Fixture.strip
           Fixture.urljoin Console.time_sleep Console.today Console.input
           Console.python_int 0 (-3) (Console.start ["4"; "-3"; "3"]));
    [discriminate|reflexivity|lia].
Defined.

(** What the driver passes on for the lines 9, abc and 7. *)
Example main_defaults :
  console_main 1 (Console.start ["9"; "abc"; "7"]) =
  scrape_articles Console.World Console.http_get Fixture.BeautifulSoup Fixture.strip
                  Fixture.urljoin Console.time_sleep Console.today
                  1 "business" 10 "csv" (Console.start []).
Proof. reflexivity. Qed.
